(** * A shallow embedding of [scripts/train.py]

    The script wires a classifier, two data loaders, an optimizer and a
    learning-rate schedule together ([Train.__init__]), runs one pass over
    the training data ([Train.train]), evaluates on the test data
    ([Train.test]) and scores one hyper-parameter trial ([objective]).

    Conventions of the embedding:
    - Python [int]s are [Z] (or [nat] where the code can only produce a
      count); a float is the rational [Q] it denotes, and the sums and the
      mean of the losses are rounded as the code rounds them, to single
      precision inside the framework and to double precision in Python
      ([float32], [float64]); a quotient of two counts is kept as the
      rational it is; infinities and NaN have no counterpart;
    - the numeric framework (network, gradients, optimizer update, random
      generator, sampler) is a record of operations, [Torch];
    - the process state (global random generator, standard output, metrics
      sink, the saved model file) is threaded through a state-and-exception
      monad [M]. *)

From Stdlib Require Import List ZArith QArith Qround Qabs Bool Lia String Ascii.
From Stdlib Require Import Permutation DecimalString Lqa.
Import ListNotations.

Local Open Scope Z_scope.

(** ** Python arithmetic and formatting *)

(** [a // b] on non-negative counts, rounded up: [len(DataLoader)]. *)
Definition ceil_div (n b : nat) : nat := ((n + b - 1) / b)%nat.

(** [str(n)] for an integer. *)
Definition str_int (z : Z) : string := NilZero.string_of_int (Z.to_int z).

Definition str_nat (n : nat) : string := str_int (Z.of_nat n).

(** Rounding of ["{:.0f}"]: to the nearest integer, ties to the even one.
    The embedding only formats non-negative values. *)
Definition round_half_even (q : Q) : Z :=
  let fl := Qfloor q in
  match Qcompare (q - inject_Z fl) (1 # 2) with
  | Lt => fl
  | Gt => fl + 1
  | Eq => if Z.even fl then fl else fl + 1
  end.

Definition format_0f (q : Q) : string := str_int (round_half_even q).

(** ** Floating-point rounding

    The value of a binary floating-point format with [prec] significant
    bits and least exponent [emin] that is nearest to [q], ties going to
    the even significand. Overflow to infinity is not modelled. *)
Definition float_round (prec emin : Z) (q : Q) : Q :=
  let r := Qred q in
  if Qnum r =? 0 then 0%Q
  else
    (* the binary exponent of [r] is [k] or [k - 1] *)
    let k := Z.log2 (Z.abs (Qnum r)) - Z.log2 (Zpos (Qden r)) in
    let m := if Qle_bool (Qpower 2 k) (Qabs r) then k else k - 1 in
    let e := Z.max (m - (prec - 1)) emin in
    Qred (inject_Z (round_half_even (r / Qpower 2 e)) * Qpower 2 e).

(** IEEE 754 binary32, the type of the framework's tensors, and binary64,
    Python's [float]. *)
Definition float32 : Q -> Q := float_round 24 (-149).
Definition float64 : Q -> Q := float_round 53 (-1074).

(** ** Batching, as [torch.utils.data.BatchSampler] does it

    Indices are appended to the current batch; a full batch is yielded and
    a new one started; what is left at the end is yielded when it is not
    empty ([drop_last] is never set by the script). *)
Fixpoint batch_sampler {A : Type} (batch_size : nat) (batch : list A)
  (l : list A) : list (list A) :=
  match l with
  | [] => match batch with [] => [] | _ => [batch] end
  | x :: l' =>
      let batch' := (batch ++ [x])%list in
      if (List.length batch' =? batch_size)%nat
      then batch' :: batch_sampler batch_size [] l'
      else batch_sampler batch_size batch' l'
  end.

(** ** Exceptions and the process monad *)

Inductive exn : Type :=
| ZeroDivisionError
| ValueError
| UnboundLocalError.

Inductive result (W A : Type) : Type :=
| Ok (a : A) (w : W)
| Raise (e : exn) (w : W).
Arguments Ok {W A} a w.
Arguments Raise {W A} e w.

Definition M (W A : Type) : Type := W -> result W A.

Definition ret {W A} (a : A) : M W A := fun w => Ok a w.

Definition raise {W A} (e : exn) : M W A := fun w => Raise e w.

Definition bind {W A B} (m : M W A) (k : A -> M W B) : M W B :=
  fun w => match m w with
           | Ok a w' => k a w'
           | Raise e w' => Raise e w'
           end.

Declare Scope py_scope.
Delimit Scope py_scope with py.
Notation "x <- m ;; k" := (bind m (fun x => k))
  (at level 61, m at next level, right associativity) : py_scope.
Notation "m ;; k" := (bind m (fun _ => k))
  (at level 61, right associativity) : py_scope.

(** What a caller sees of a finished computation, the process state apart. *)
Inductive outcome (A : Type) : Type :=
| Returned (a : A)
| Raised (e : exn).
Arguments Returned {A} a.
Arguments Raised {A} e.

Definition outcome_of {W A} (r : result W A) : outcome A :=
  match r with
  | Ok a _ => Returned a
  | Raise e _ => Raised e
  end.

Definition world_of {W A} (r : result W A) : W :=
  match r with
  | Ok _ w => w
  | Raise _ w => w
  end.

(** ** The external collaborators

    Everything the script delegates: the random generator, the data sets,
    the classifier and its gradients, the loss and prediction of one row of
    scores, the optimizer's update rule and the sampler's permutation. *)
Record Torch : Type := {
  Input : Type;
  Params : Type;
  Grad : Type;
  Scores : Type;
  Rng : Type;
  AdamState : Type;
  (** [torch.manual_seed]: the generator state depends on the seed only. *)
  manual_seed : Z -> Rng;
  (** [torch.cuda.is_available()]. *)
  cuda_is_available : bool;
  (** [datasets.MNIST(train=...)]: examples are (input, class index). *)
  MNIST : bool -> list (Input * nat);
  (** Modelled from the spec: [plr_exercise.models.cnn.Net], a classifier
      with a parameter set drawn from the generator at construction ... *)
  Net_init : Rng -> Params * Rng;
  (** ... exposing a pure function from an input to per-class
      log-probabilities; the flag is the module's training mode. *)
  forward : bool -> Params -> Input -> Scores;
  (** Negative log-likelihood of one row against its label. *)
  nll : Scores -> nat -> Q;
  (** Index of the highest score of one row. *)
  argmax : Scores -> nat;
  (** Gradient of the mean training loss of a batch at the parameters. *)
  backward : Params -> list (Input * nat) -> Grad;
  (** [.grad] accumulates over backward passes until zeroed. *)
  grad_add : Grad -> Grad -> Grad;
  Adam_init : AdamState;
  (** One Adam update at a learning rate. *)
  Adam_update : Q -> AdamState -> Params -> Grad -> Params * AdamState;
  (** The order a shuffling sampler draws from the generator. *)
  randperm : Rng -> list (Input * nat) -> list (Input * nat) * Rng
}.

(** The sampler visits every example once. *)
Definition sampler_permutes (F : Torch) : Prop :=
  forall r l, Permutation (fst (randperm F r l)) l.

(** ** Configuration: the [argparse] namespace *)
Record Args : Type := {
  batch_size : Z;
  test_batch_size : Z;
  epochs : Z;
  lr : Q;
  gamma : Q;
  no_cuda : bool;
  dry_run : bool;
  seed : Z;
  log_interval : Z;
  save_model : bool
}.

(** The defaults of the parser. *)
Definition default_args : Args := {|
  batch_size := 64;
  test_batch_size := 1000;
  epochs := 2;
  lr := 2 # 1000;
  gamma := 7 # 10;
  no_cuda := false;
  dry_run := false;
  seed := 1;
  log_interval := 10;
  save_model := false
|}.

(** ** What the process emits *)

(** The arguments of the two [print] calls, before formatting. *)
Inductive Line : Type :=
| TrainStatus (epoch : nat) (processed total : nat) (percent loss : Q)
| TestSummary (avg_loss : Q) (correct total : nat) (percent : Q).

(** The batch-progress part of a training status line:
    ["{}/{} ({:.0f}%)"]. *)
Definition progress_field (l : Line) : string :=
  match l with
  | TrainStatus _ processed total percent _ =>
      (str_nat processed ++ "/" ++ str_nat total
         ++ " (" ++ format_0f percent ++ "%)")%string
  | TestSummary _ _ _ _ => EmptyString
  end.

Definition status_loss (l : Line) : option Q :=
  match l with
  | TrainStatus _ _ _ _ loss => Some loss
  | TestSummary _ _ _ _ => None
  end.

Inductive WandbEvent : Type :=
| WandbInit (project : string) (learning_rate : Q) (n_epochs : Z)
| WandbLog (key : string) (value : Q).

(** Ghost record of the calls made on a trainer and on a schedule, in
    order; a test call is recorded with the accuracy it returns. *)
Inductive Call : Type :=
| CallTrain (epoch : nat)
| CallTest (accuracy : Q)
| CallSchedulerStep.

(** The sampled point of a trial: what the search driver answers. *)
Record Trial : Type := {
  suggest_float : string -> Q -> Q -> Q;
  suggest_int : string -> Z -> Z -> Z
}.

(** The driver answers inside the requested range. *)
Definition suggests_in_range (trial : Trial) : Prop :=
  (forall name lo hi, lo <= hi ->
     lo <= suggest_int trial name lo hi <= hi)
  /\ (forall name lo hi, (lo <= hi)%Q ->
        (lo <= suggest_float trial name lo hi <= hi)%Q).

(** ** The harness *)
Section Harness.

Variable F : Torch.

Definition Example : Type := (Input F * nat)%type.
Definition Batch : Type := list Example.

(** *** Process state *)
Record World : Type := {
  rng : Rng F;                         (* the global generator *)
  stdout : list Line;
  wandb : list WandbEvent;             (* the metrics sink *)
  calls : list Call;                   (* ghost *)
  mnist_cnn_pt : option (Params F)     (* the file "mnist_cnn.pt" *)
}.

Definition Py (A : Type) : Type := M World A.

Definition set_rng (r : Rng F) : Py unit := fun w =>
  Ok tt {| rng := r; stdout := stdout w; wandb := wandb w;
           calls := calls w; mnist_cnn_pt := mnist_cnn_pt w |}.

Definition print (l : Line) : Py unit := fun w =>
  Ok tt {| rng := rng w; stdout := (stdout w ++ [l])%list; wandb := wandb w;
           calls := calls w; mnist_cnn_pt := mnist_cnn_pt w |}.

Definition wandb_emit (e : WandbEvent) : Py unit := fun w =>
  Ok tt {| rng := rng w; stdout := stdout w; wandb := (wandb w ++ [e])%list;
           calls := calls w; mnist_cnn_pt := mnist_cnn_pt w |}.

Definition record_call (c : Call) : Py unit := fun w =>
  Ok tt {| rng := rng w; stdout := stdout w; wandb := wandb w;
           calls := (calls w ++ [c])%list; mnist_cnn_pt := mnist_cnn_pt w |}.

Definition torch_save (p : Params F) : Py unit := fun w =>
  Ok tt {| rng := rng w; stdout := stdout w; wandb := wandb w;
           calls := calls w; mnist_cnn_pt := Some p |}.

(** Draw from the global generator. *)
Definition with_rng {A} (f : Rng F -> A * Rng F) : Py A := fun w =>
  let '(a, r) := f (rng w) in
  Ok a {| rng := r; stdout := stdout w; wandb := wandb w;
          calls := calls w; mnist_cnn_pt := mnist_cnn_pt w |}.

(** *** Objects *)

(** [nn.Module]: parameters, their accumulated [.grad], the mode flag. *)
Record Module : Type := {
  params : Params F;
  grads : option (Grad F);
  training : bool
}.

(** [optim.Adam]; [opt_step_count] counts the calls of [step]. The
    parameters it updates are those of the module it was built on: [step]
    and [zero_grad] below take that module. *)
Record Optimizer : Type := {
  opt_lr : Q;
  opt_state : AdamState F;
  opt_step_count : nat
}.

(** [StepLR]; the optimizer whose rate it decays is the one it was built
    on: [StepLR_step] below takes that optimizer. *)
Record StepLR : Type := {
  step_size : Z;
  sched_gamma : Q;
  last_epoch : Z
}.

Record DataLoader : Type := {
  dataset : list Example;
  dl_batch_size : nat;
  shuffle : bool
}.

Record Train : Type := {
  args : Args;
  use_cuda : bool;                     (* decides [self.device] *)
  train_loader : DataLoader;
  test_loader : DataLoader;
  model : Module;
  optimizer : Optimizer;
  scheduler : StepLR
}.

Definition set_model (t : Train) (m : Module) : Train :=
  {| args := args t; use_cuda := use_cuda t;
     train_loader := train_loader t; test_loader := test_loader t;
     model := m; optimizer := optimizer t; scheduler := scheduler t |}.

Definition set_optimizer (t : Train) (o : Optimizer) : Train :=
  {| args := args t; use_cuda := use_cuda t;
     train_loader := train_loader t; test_loader := test_loader t;
     model := model t; optimizer := o; scheduler := scheduler t |}.

(** *** Framework objects in terms of the collaborators *)

(** [model.train()] and [model.eval()]. *)
Definition set_mode (flag : bool) (m : Module) : Module :=
  {| params := params m; grads := grads m; training := flag |}.

(** [optimizer.zero_grad()]: the gradients are dropped. *)
Definition zero_grad (m : Module) : Module :=
  {| params := params m; grads := None; training := training m |}.

(** [loss.backward()] for the mean loss of batch [b]. *)
Definition loss_backward (m : Module) (b : Batch) : Module :=
  let g := backward F (params m) b in
  {| params := params m;
     grads := Some (match grads m with
                    | None => g
                    | Some g0 => grad_add F g0 g
                    end);
     training := training m |}.

(** [optim.Adam(params, lr=rate)]: a negative rate is refused. A rate is
    a rational here; the not-a-number that [--lr nan] gives, which the
    constructor refuses as well, is outside the embedding. *)
Definition Adam (rate : Q) : Py Optimizer :=
  if Qle_bool 0 rate
  then ret {| opt_lr := rate; opt_state := Adam_init F; opt_step_count := 0 |}
  else raise ValueError.

(** [optimizer.step()]: parameters without a gradient are skipped. *)
Definition Optimizer_step (o : Optimizer) (m : Module) : Optimizer * Module :=
  match grads m with
  | None =>
      ({| opt_lr := opt_lr o; opt_state := opt_state o;
          opt_step_count := S (opt_step_count o) |}, m)
  | Some g =>
      let '(p, s) := Adam_update F (opt_lr o) (opt_state o) (params m) g in
      ({| opt_lr := opt_lr o; opt_state := s;
          opt_step_count := S (opt_step_count o) |},
       {| params := p; grads := grads m; training := training m |})
  end.

(** The constructor's own first step leaves the schedule at epoch 0 and
    the rate as given. *)
Definition StepLR_init (size : Z) (g : Q) : StepLR :=
  {| step_size := size; sched_gamma := g; last_epoch := 0 |}.

(** [scheduler.step()] on the optimizer [o] the schedule was built on. *)
Definition StepLR_step (s : StepLR) (o : Optimizer)
  : Py (StepLR * Optimizer) :=
  (record_call CallSchedulerStep ;;
   let e := last_epoch s + 1 in
   let s' := {| step_size := step_size s; sched_gamma := sched_gamma s;
                last_epoch := e |} in
   if step_size s =? 0 then raise ZeroDivisionError
   else if (e =? 0) || negb (e mod step_size s =? 0) then ret (s', o)
   else ret (s', {| opt_lr := opt_lr o * sched_gamma s;
                    opt_state := opt_state o;
                    opt_step_count := opt_step_count o |}))%py.

(** [DataLoader(dataset, batch_size=..., shuffle=...)]. Over an empty
    data set a shuffling loader cannot be built in torch (its sampler
    raises [ValueError]); the embedding builds it, and no MNIST split is
    empty. *)
Definition DataLoader_init (ds : list Example) (bs : Z) (sh : bool)
  : Py DataLoader :=
  if bs <=? 0 then raise ValueError
  else ret {| dataset := ds; dl_batch_size := Z.to_nat bs; shuffle := sh |}.

(** [len(loader)]: the number of batches. *)
Definition DataLoader_len (dl : DataLoader) : nat :=
  ceil_div (List.length (dataset dl)) (dl_batch_size dl).

(** [iter(loader)]: the batches of one pass, in order. The generator
    is advanced by the permutation of a shuffling pass only; the base
    seed that torch draws at every [iter(loader)] is not modelled. *)
Definition DataLoader_iter (dl : DataLoader) : Py (list Batch) :=
  (order <- (if shuffle dl then with_rng (fun r => randperm F r (dataset dl))
             else ret (dataset dl)) ;;
   ret (batch_sampler (dl_batch_size dl) [] order))%py.

(** [F.nll_loss(output, target, reduction="sum")]: the losses of the
    rows of a batch, added up in single precision. *)
Definition nll_loss_sum (output : list (Scores F)) (target : list nat) : Q :=
  fold_left (fun acc x => float32 (acc + x))
            (map (fun st => nll F (fst st) (snd st)) (combine output target))
            0%Q.

(** [F.nll_loss(output, target)]: the mean over the batch. *)
Definition nll_loss (output : list (Scores F)) (target : list nat) : Q :=
  float32 (nll_loss_sum output target
           / inject_Z (Z.of_nat (List.length target))).

(** [pred.eq(target.view_as(pred)).sum().item()]. *)
Definition count_eq (pred target : list nat) : nat :=
  List.length (filter (fun pt => Nat.eqb (fst pt) (snd pt))
                      (combine pred target)).

(** [self.model(data)]. *)
Definition Module_call (m : Module) (data : list (Input F))
  : list (Scores F) :=
  map (forward F (training m) (params m)) data.

(** *** [Train.__init__]

    The seed is taken to be one that [torch.manual_seed] accepts, from
    [-2^63] to [2^64 - 1]; beyond that range line 89 raises before the
    tracking run is opened, which the embedding does not cover. *)
Definition Train_init (a : Args) : Py Train :=
  (let cuda := negb (no_cuda a) && cuda_is_available F in
   set_rng (manual_seed F (seed a)) ;;
   wandb_emit (WandbInit "plr_exercies" (lr a) (epochs a)) ;;
   (* cuda_kwargs carries shuffle=True into both loaders *)
   trl <- DataLoader_init (MNIST F true) (batch_size a) cuda ;;
   tel <- DataLoader_init (MNIST F false) (test_batch_size a) cuda ;;
   p <- with_rng (Net_init F) ;;
   opt <- Adam (lr a) ;;
   ret {| args := a; use_cuda := cuda;
          train_loader := trl; test_loader := tel;
          model := {| params := p; grads := None; training := true |};
          optimizer := opt;
          scheduler := StepLR_init 1 (gamma a) |})%py.

(** *** [Train.train] *)

(** The gradient update of one batch (lines 144-148): the stepped
    optimizer is [self.optimizer]. Returns the batch loss. *)
Definition train_batch (t : Train) (b : Batch) : Train * Q :=
  let m0 := zero_grad (model t) in
  let output := Module_call m0 (map fst b) in
  let loss := nll_loss output (map snd b) in
  let m1 := loss_backward m0 b in
  let '(o, m2) := Optimizer_step (optimizer t) m1 in
  (set_optimizer (set_model t m2) o, loss).

(** The body of the [for] loop over [enumerate(self.train_loader)]. *)
Fixpoint train_loop (t : Train) (epoch : nat) (batch_idx : nat)
  (batches : list Batch) : Py Train :=
  match batches with
  | [] => ret t
  | data :: rest =>
      let '(t', loss) := train_batch t data in
      if log_interval (args t') =? 0 then raise ZeroDivisionError
      else if Z.of_nat batch_idx mod log_interval (args t') =? 0 then
        (wandb_emit (WandbLog "training_loss" loss) ;;
         print (TrainStatus epoch
                  (batch_idx * List.length data)
                  (List.length (dataset (train_loader t')))
                  (100 * inject_Z (Z.of_nat batch_idx)
                     / inject_Z (Z.of_nat (DataLoader_len (train_loader t'))))
                  loss) ;;
         if dry_run (args t') then ret t'
         else train_loop t' epoch (S batch_idx) rest)%py
      else train_loop t' epoch (S batch_idx) rest
  end.

Definition train (t : Train) (epoch : nat) : Py Train :=
  (record_call (CallTrain epoch) ;;
   let t := set_model t (set_mode true (model t)) in
   batches <- DataLoader_iter (train_loader t) ;;
   train_loop t epoch 0 batches)%py.

(** *** [Train.test] *)

(** The [for] loop under [torch.no_grad()]: the sum of the batch losses
    and the number of correct predictions. *)
Fixpoint test_loop (m : Module) (batches : list Batch)
  (test_loss : Q) (correct : nat) : Q * nat :=
  match batches with
  | [] => (test_loss, correct)
  | b :: rest =>
      let output := Module_call m (map fst b) in
      (* [.item()] is exact; [+=] adds Python floats *)
      let test_loss := float64 (test_loss + nll_loss_sum output (map snd b)) in
      let pred := map (argmax F) output in
      let correct := (correct + count_eq pred (map snd b))%nat in
      test_loop m rest test_loss correct
  end.

Definition test (t : Train) : Py (Q * Train) :=
  (let t := set_model t (set_mode false (model t)) in
   batches <- DataLoader_iter (test_loader t) ;;
   let '(test_loss, correct) := test_loop (model t) batches 0%Q 0%nat in
   let n := List.length (dataset (test_loader t)) in
   if (n =? 0)%nat then raise ZeroDivisionError
   else
     let test_loss := float64 (test_loss / inject_Z (Z.of_nat n)) in
     wandb_emit (WandbLog "test_loss" test_loss) ;;
     print (TestSummary test_loss correct n
              (100 * inject_Z (Z.of_nat correct) / inject_Z (Z.of_nat n))) ;;
     let accuracy := (inject_Z (Z.of_nat correct) / inject_Z (Z.of_nat n))%Q in
     record_call (CallTest accuracy) ;;
     ret (accuracy, t))%py.

(** *** [objective] *)

(** The local variables of [objective]. [optimizer] and [scheduler] are
    the objects built at lines 217-218, distinct from [t.optimizer] and
    [t.scheduler]. *)
Record Frame : Type := {
  fr_t : Train;
  fr_optimizer : Optimizer;
  fr_scheduler : StepLR;
  fr_accuracy : option Q
}.

(** The [for epoch in range(epochs)] loop. *)
Fixpoint objective_loop (fr : Frame) (range : list nat) : Py Frame :=
  match range with
  | [] => ret fr
  | epoch :: rest =>
      (t <- train (fr_t fr) epoch ;;
       at' <- test t ;;
       so <- StepLR_step (fr_scheduler fr) (fr_optimizer fr) ;;
       objective_loop {| fr_t := snd at'; fr_optimizer := snd so;
                         fr_scheduler := fst so;
                         fr_accuracy := Some (fst at') |} rest)%py
  end.

(** [objective] up to its [return]: the frame at that point. *)
Definition objective_frame (a : Args) (trial : Trial) : Py Frame :=
  (t <- Train_init a ;;
   let rate := suggest_float trial "lr" (1 # 100000) (1 # 10) in
   let n_epochs := suggest_int trial "epochs" 1 1 in
   opt <- Adam rate ;;
   let sched := StepLR_init 1 (gamma (args t)) in
   fr <- objective_loop {| fr_t := t; fr_optimizer := opt;
                           fr_scheduler := sched; fr_accuracy := None |}
                        (seq 0 (Z.to_nat n_epochs)) ;;
   (if save_model (args (fr_t fr))
    then torch_save (params (model (fr_t fr))) else ret tt) ;;
   ret fr)%py.

Definition objective (a : Args) (trial : Trial) : Py Q :=
  (fr <- objective_frame a trial ;;
   match fr_accuracy fr with
   | Some accuracy => ret accuracy
   | None => raise UnboundLocalError
   end)%py.

End Harness.

Arguments rng {F} _.
Arguments stdout {F} _.
Arguments wandb {F} _.
Arguments calls {F} _.
Arguments mnist_cnn_pt {F} _.
Arguments params {F} _.
Arguments grads {F} _.
Arguments training {F} _.
Arguments opt_lr {F} _.
Arguments opt_state {F} _.
Arguments opt_step_count {F} _.
Arguments dataset {F} _.
Arguments dl_batch_size {F} _.
Arguments shuffle {F} _.
Arguments args {F} _.
Arguments use_cuda {F} _.
Arguments train_loader {F} _.
Arguments test_loader {F} _.
Arguments model {F} _.
Arguments optimizer {F} _.
Arguments scheduler {F} _.
Arguments fr_t {F} _.
Arguments fr_optimizer {F} _.
Arguments fr_scheduler {F} _.
Arguments fr_accuracy {F} _.
Arguments set_model {F} t m.
Arguments set_optimizer {F} t o.
Arguments set_mode {F} flag m.
Arguments zero_grad {F} m.
Arguments loss_backward {F} m b.
Arguments Optimizer_step {F} o m.
Arguments StepLR_step {F} s o _.
Arguments DataLoader_len {F} dl.
Arguments DataLoader_iter {F} dl _.
Arguments Module_call {F} m data.
Arguments train_batch {F} t b.
Arguments train_loop {F} t epoch batch_idx batches _.
Arguments train {F} t epoch _.
Arguments test_loop {F} m batches test_loss correct.
Arguments test {F} t _.
Arguments objective_loop {F} fr range _.

(** ** The evaluation, as the specification words it

    Over the whole test set, example by example, with no batching. *)

(** The count of examples whose highest-scoring class is the label. *)
Definition correct_count (F : Torch) (p : Params F)
  (ds : list (Input F * nat)) : nat :=
  List.length
    (filter (fun ex => Nat.eqb (argmax F (forward F false p (fst ex))) (snd ex))
            ds).


Definition accuracy_spec (F : Torch) (p : Params F)
  (ds : list (Input F * nat)) : Q :=
  (inject_Z (Z.of_nat (correct_count F p ds))
     / inject_Z (Z.of_nat (List.length ds)))%Q.


(** A process that has emitted nothing yet. *)
Definition boot (F : Torch) (r : Rng F) : World F :=
  {| rng := r; stdout := []; wandb := []; calls := []; mnist_cnn_pt := None |}.

(** One run of one training epoch from scratch. *)
Definition run_epoch (F : Torch) (a : Args) (epoch : nat) : Py F (Train F) :=
  (t <- Train_init F a ;; train t epoch)%py.

(** ** A small concrete framework

    A two-class linear scorer on rational inputs with plain gradient
    descent in the optimizer's place, to run the harness on. *)
Module Toy.

Fixpoint argmax_from (best : Q) (best_i i : nat) (row : list Q) : nat :=
  match row with
  | [] => best_i
  | s :: rest =>
      if Qle_bool s best then argmax_from best best_i (S i) rest
      else argmax_from s i (S i) rest
  end.

(** The first index of the maximum. *)
Definition row_argmax (row : list Q) : nat :=
  match row with
  | [] => 0%nat
  | s :: rest => argmax_from s 0 1 rest
  end.

Definition row_nll (row : list Q) (y : nat) : Q := (- nth y row 0)%Q.

Definition linear (_ : bool) (w x : Q) : list Q := [(- (w * x))%Q; (w * x)%Q].

(** d/dw of the mean of [row_nll (linear w x) y] over the batch. *)
Definition mean_grad (_ : Q) (b : list (Q * nat)) : Q :=
  (fold_right (fun ex acc =>
                 ((if Nat.eqb (snd ex) 1 then - fst ex else fst ex) + acc)%Q)
              0%Q b
   / inject_Z (Z.of_nat (List.length b)))%Q.

Definition update (rate : Q) (_ : unit) (w g : Q) : Q * unit :=
  (Qred (w - rate * g), tt).

Definition mnist (is_train : bool) : list (Q * nat) :=
  if is_train
  then [(1 # 1, 1%nat); (2 # 1, 0%nat); (-1 # 1, 1%nat); (3 # 1, 1%nat)]%Q
  else [(1 # 1, 1%nat); (-2 # 1, 0%nat); (2 # 1, 0%nat)]%Q.

Definition torch_on (cuda : bool) : Torch := {|
  Input := Q;
  Params := Q;
  Grad := Q;
  Scores := list Q;
  Rng := Z;
  AdamState := unit;
  manual_seed := fun s => s;
  cuda_is_available := cuda;
  MNIST := mnist;
  Net_init := fun r => (inject_Z r, r + 1);
  forward := linear;
  nll := row_nll;
  argmax := row_argmax;
  backward := mean_grad;
  grad_add := Qplus;
  Adam_init := tt;
  Adam_update := update;
  randperm := fun r l => (rev l, r + 1)
|}.

Definition torch : Torch := torch_on false.

(** Batches of two, a status line per batch. *)
Definition small_args : Args := {|
  batch_size := 2;
  test_batch_size := 2;
  epochs := 1;
  lr := 2 # 1000;
  gamma := 7 # 10;
  no_cuda := false;
  dry_run := false;
  seed := 1;
  log_interval := 1;
  save_model := false
|}.

Definition dry_args : Args := {|
  batch_size := 2;
  test_batch_size := 2;
  epochs := 1;
  lr := 2 # 1000;
  gamma := 7 # 10;
  no_cuda := false;
  dry_run := true;
  seed := 1;
  log_interval := 1;
  save_model := false
|}.

(** The same with a base learning rate fifty times larger. *)
Definition fast_args : Args := {|
  batch_size := 2;
  test_batch_size := 2;
  epochs := 1;
  lr := 1 # 10;
  gamma := 7 # 10;
  no_cuda := false;
  dry_run := false;
  seed := 1;
  log_interval := 1;
  save_model := false
|}.

(** A trial that answers a fixed rate when it is inside the requested
    range, and the low end of a range otherwise. *)
Definition trial_low (rate : Q) : Trial :=
  {| suggest_float := fun _ lo hi =>
       if Qle_bool lo rate && Qle_bool rate hi then rate else lo;
     suggest_int := fun _ lo _ => lo |}.

(** A trial that answers a fixed rate and epoch count. *)
Definition trial_of (rate : Q) (n : Z) : Trial :=
  {| suggest_float := fun _ _ _ => rate; suggest_int := fun _ _ _ => n |}.

(** A trainer as [Train.__init__] leaves it, built by hand. *)
Definition trainer_on (cuda : bool) (a : Args) (test_set : list (Q * nat))
  : Train (torch_on cuda) :=
  let F := torch_on cuda in
  Build_Train F a cuda
    (Build_DataLoader F (mnist true) 2 cuda)
    (Build_DataLoader F test_set 2 cuda)
    (Build_Module F 1%Q None true)
    (Build_Optimizer F (lr a) tt 0)
    (StepLR_init 1 (gamma a)).




End Toy.

(** ** Auxiliary definitions for the proofs *)

(** The order in which one pass of a loader visits the examples, and the
    process state after the sampler has drawn it. *)
Definition pass_order {F : Torch} (dl : DataLoader F) (w : World F)
  : list (Input F * nat) :=
  if shuffle dl then fst (randperm F (rng w) (dataset dl)) else dataset dl.

Definition pass_world {F : Torch} (dl : DataLoader F) (w : World F)
  : World F :=
  if shuffle dl
  then {| rng := snd (randperm F (rng w) (dataset dl)); stdout := stdout w;
          wandb := wandb w; calls := calls w;
          mnist_cnn_pt := mnist_cnn_pt w |}
  else w.

(** Whether the module, in its current mode, predicts the label. *)
Definition hit {F : Torch} (m : Module F) (ex : Input F * nat) : bool :=
  Nat.eqb (argmax F (forward F (training m) (params m) (fst ex))) (snd ex).


(** [model.eval()] on the trainer's module. *)
Definition in_eval {F : Torch} (t : Train F) : Train F :=
  set_model t (set_mode false (model t)).





(** [model.train()] on the trainer's module. *)
Definition in_training {F : Torch} (t : Train F) : Train F :=
  set_model t (set_mode true (model t)).

(** Two finished computations end alike: both returned, with results
    related by [R], or both raised the same exception; and they left the
    generator in the same state. What they have emitted is not compared. *)
Definition ends_alike {F : Torch} {A B : Type} (R : A -> B -> Prop)
  (r1 : result (World F) A) (r2 : result (World F) B) : Prop :=
  match r1, r2 with
  | Ok a1 w1, Ok a2 w2 => R a1 a2 /\ rng w1 = rng w2
  | Raise e1 w1, Raise e2 w2 => e1 = e2 /\ rng w1 = rng w2
  | _, _ => False
  end.

(** Two computations agree: from process states with the same generator
    state they end alike. *)
Definition agree {F : Torch} {A B : Type} (R : A -> B -> Prop)
  (m1 : Py F A) (m2 : Py F B) : Prop :=
  forall w1 w2, rng w1 = rng w2 -> ends_alike R (m1 w1) (m2 w2).

(** Two computations that end alike from any two process states. *)
Definition resets {F : Torch} {A B : Type} (R : A -> B -> Prop)
  (m1 : Py F A) (m2 : Py F B) : Prop :=
  forall w1 w2, ends_alike R (m1 w1) (m2 w2).

(** The frames of two trials that differ at most in the objects built
    from the sampled point. *)
Definition same_trainer {F : Torch} (f1 f2 : Frame F) : Prop :=
  fr_t f1 = fr_t f2 /\ fr_accuracy f1 = fr_accuracy f2
  /\ step_size (fr_scheduler f1) = 1 /\ step_size (fr_scheduler f2) = 1.

(** The process state once a call has been recorded. *)
Definition with_call {F : Torch} (c : Call) (w : World F) : World F :=
  {| rng := rng w; stdout := stdout w; wandb := wandb w;
     calls := (calls w ++ [c])%list; mnist_cnn_pt := mnist_cnn_pt w |}.

(** The batches of one pass over the training data. *)
Definition train_batches {F : Torch} (t : Train F) (w : World F)
  : list (list (Input F * nat)) :=
  batch_sampler (dl_batch_size (train_loader t)) []
    (pass_order (train_loader t) w).

(** The epochs of a trial, one after the other. [runs_epochs first accs
    fr w fr' w'] says that from the frame [fr] and the process state [w]
    as many epochs as [accs] has entries have run, numbered from
    [first]: each is one call of [train] on the trainer of the frame,
    then one call of [test] on the trainer that [train] returned, then
    one step of the schedule of the frame, each call made in the process
    state the call before left; the entries of [accs] are the accuracies
    the calls of [test] returned, and [fr'] and [w'] are the frame and
    the process state after the last epoch. *)
Inductive runs_epochs {F : Torch}
  : nat -> list Q -> Frame F -> World F -> Frame F -> World F -> Prop :=
| runs_no_epoch (first : nat) (fr : Frame F) (w : World F) :
    runs_epochs first [] fr w fr w
| runs_one_more (first : nat) (accuracy : Q) (accs : list Q)
    (fr : Frame F) (w : World F)
    (t1 : Train F) (w1 : World F) (t2 : Train F) (w2 : World F)
    (s : StepLR) (o : Optimizer F) (w3 : World F)
    (fr' : Frame F) (w' : World F) :
    train (fr_t fr) first w = Ok t1 w1 ->
    test t1 w1 = Ok (accuracy, t2) w2 ->
    StepLR_step (fr_scheduler fr) (fr_optimizer fr) w2 = Ok (s, o) w3 ->
    runs_epochs (S first) accs
      (Build_Frame F t2 o s (Some accuracy)) w3 fr' w' ->
    runs_epochs first (accuracy :: accs) fr w fr' w'.

(** The calls of the epochs that returned the accuracies [accs], the
    first of them numbered [first]. *)
Definition epoch_calls (first : nat) (accs : list Q) : list Call :=
  List.concat
    (map (fun ia => [CallTrain (fst ia); CallTest (snd ia); CallSchedulerStep])
         (combine (seq first (List.length accs)) accs)).

(** ** The search: [main]

    [study.optimize(objective, n_trials=5, timeout=600)] runs the trials
    one after the other in the same process and does not catch what
    [objective] raises. The driver stops after 5 trials or, between two
    trials, when the time budget is used up: the list [points] holds the
    points the driver samples for the trials it gets to start within the
    budget, in order. A finished trial is kept with the parameters it
    was asked for and the value it returned. *)
Definition trial_params (trial : Trial) : Q * Z :=
  (suggest_float trial "lr" (1 # 100000) (1 # 10),
   suggest_int trial "epochs" 1 1).

Fixpoint study_optimize (F : Torch) (a : Args) (points : list Trial)
  : Py F (list (Trial * Q)) :=
  match points with
  | [] => ret []
  | trial :: rest =>
      (value <- objective F a trial ;;
       finished <- study_optimize F a rest ;;
       ret ((trial, value) :: finished))%py
  end.

(** [study.best_trial] of a maximizing study: a later trial replaces the
    best one when its value is strictly greater. *)
Fixpoint best_of (best : Trial * Q) (finished : list (Trial * Q))
  : Trial * Q :=
  match finished with
  | [] => best
  | x :: rest =>
      if Qle_bool (snd x) (snd best) then best_of best rest
      else best_of x rest
  end.

Definition best_trial (F : Torch) (finished : list (Trial * Q))
  : Py F (Trial * Q) :=
  match finished with
  | [] => raise ValueError
  | x :: rest => ret (best_of x rest)
  end.

(** [main], returning the parameters that its last line prints. *)
Definition main (F : Torch) (a : Args) (points : list Trial) : Py F (Q * Z) :=
  (finished <- study_optimize F a (firstn 5 points) ;;
   trial <- best_trial F finished ;;
   ret (trial_params (fst trial)))%py.

(** ** Further definitions: the driver and what the later sections state *)

(** The trainer after the gradient updates of all of [batches], in
    order. *)
Definition train_all {F : Torch} (t : Train F)
  (batches : list (list (Input F * nat))) : Train F :=
  fold_left (fun t' b => fst (train_batch t' b)) batches t.

(** A logged batch: its index, its length and its loss; the status line
    and the metrics event [train] emits for it. *)
Definition status_line {F : Torch} (t : Train F) (epoch : nat)
  (x : nat * nat * Q) : Line :=
  TrainStatus epoch (fst (fst x) * snd (fst x))
    (List.length (dataset (train_loader t)))
    (100 * inject_Z (Z.of_nat (fst (fst x)))
       / inject_Z (Z.of_nat (DataLoader_len (train_loader t))))
    (snd x).

Definition status_event (x : nat * nat * Q) : WandbEvent :=
  WandbLog "training_loss" (snd x).

(** The sample counter a status line carries. *)
Definition status_processed (l : Line) : nat :=
  match l with
  | TrainStatus _ processed _ _ _ => processed
  | TestSummary _ _ _ _ => 0%nat
  end.

(** The percentage a status line carries. *)
Definition status_percent (l : Line) : Q :=
  match l with
  | TrainStatus _ _ _ percent _ => percent
  | TestSummary _ _ _ percent => percent
  end.

(** A computation leaves the model file alone, however it ends, and
    what it returns satisfies [P]. *)
Definition leaves_file {F : Torch} {A : Type} (P : A -> Prop) (m : Py F A)
  : Prop :=
  forall w,
    mnist_cnn_pt (world_of (m w)) = mnist_cnn_pt w
    /\ (forall a w', m w = Ok a w' -> P a).

(** What [train] and [test] keep of a trainer. *)
Definition keeps_setup {F : Torch} (t t' : Train F) : Prop :=
  args t' = args t
  /\ scheduler t' = scheduler t
  /\ opt_lr (optimizer t') = opt_lr (optimizer t).

(** What [n] epochs of the loop of [objective] make of a frame. *)
Definition after_epochs {F : Torch} (n : nat) (fr fr' : Frame F) : Prop :=
  keeps_setup (fr_t fr) (fr_t fr')
  /\ step_size (fr_scheduler fr') = 1
  /\ sched_gamma (fr_scheduler fr') = sched_gamma (fr_scheduler fr)
  /\ last_epoch (fr_scheduler fr') = last_epoch (fr_scheduler fr) + Z.of_nat n
  /\ opt_lr (fr_optimizer fr')
     = Nat.iter n (fun r => (r * sched_gamma (fr_scheduler fr))%Q)
                (opt_lr (fr_optimizer fr)).

(** Two configurations that differ at most in the flags [--epochs] and
    [--gamma]. *)
Definition same_but_schedule_flags (a1 a2 : Args) : Prop :=
  batch_size a1 = batch_size a2
  /\ test_batch_size a1 = test_batch_size a2
  /\ lr a1 = lr a2
  /\ no_cuda a1 = no_cuda a2
  /\ dry_run a1 = dry_run a2
  /\ seed a1 = seed a2
  /\ log_interval a1 = log_interval a2
  /\ save_model a1 = save_model a2.

(** Two trainers that differ at most in those flags and in their own
    schedules. *)
Definition alike {F : Torch} (t1 t2 : Train F) : Prop :=
  same_but_schedule_flags (args t1) (args t2)
  /\ train_loader t1 = train_loader t2
  /\ test_loader t1 = test_loader t2
  /\ model t1 = model t2
  /\ optimizer t1 = optimizer t2.

Definition alike_frames {F : Torch} (f1 f2 : Frame F) : Prop :=
  alike (fr_t f1) (fr_t f2)
  /\ fr_accuracy f1 = fr_accuracy f2
  /\ step_size (fr_scheduler f1) = 1
  /\ step_size (fr_scheduler f2) = 1.

(** ** More inputs on the small framework *)

(** A shuffling trainer on given data sets and batch sizes. *)
Definition toy_trainer (a : Args) (train_bs test_bs : nat)
  (train_set test_set : list (Q * nat)) : Train (Toy.torch_on true) :=
  let F := Toy.torch_on true in
  Build_Train F a true
    (Build_DataLoader F train_set train_bs true)
    (Build_DataLoader F test_set test_bs true)
    (Build_Module F 1%Q None true)
    (Build_Optimizer F (lr a) tt 0)
    (StepLR_init 1 (gamma a)).

(** [Toy.small_args] with a logging interval of 0. *)
Definition zero_interval_args : Args := {|
  batch_size := 2;
  test_batch_size := 2;
  epochs := 1;
  lr := 2 # 1000;
  gamma := 7 # 10;
  no_cuda := false;
  dry_run := false;
  seed := 1;
  log_interval := 0;
  save_model := false
|}.

(** [Toy.small_args] with the save-model flag. *)
Definition saving_args : Args := {|
  batch_size := 2;
  test_batch_size := 2;
  epochs := 1;
  lr := 2 # 1000;
  gamma := 7 # 10;
  no_cuda := false;
  dry_run := false;
  seed := 1;
  log_interval := 1;
  save_model := true
|}.

(** [Toy.small_args] with other values of [--epochs] and [--gamma]. *)
Definition other_schedule_args : Args := {|
  batch_size := 2;
  test_batch_size := 2;
  epochs := 7;
  lr := 2 # 1000;
  gamma := 9 # 10;
  no_cuda := false;
  dry_run := false;
  seed := 1;
  log_interval := 1;
  save_model := false
|}.

(** A test set the initial parameter 1 classifies without error. *)
Definition easy_tests : list (Q * nat) :=
  [(1 # 1, 1%nat); (-2 # 1, 0%nat)]%Q.

(** [Toy.small_args] with a status line every third batch. *)
Definition every_third_args : Args := {|
  batch_size := 1;
  test_batch_size := 2;
  epochs := 1;
  lr := 2 # 1000;
  gamma := 7 # 10;
  no_cuda := false;
  dry_run := false;
  seed := 1;
  log_interval := 3;
  save_model := false
|}.

(** [Toy.small_args] with a batch size of 1, a rate of 0 and a status
    line every 199 batches. *)
Definition last_batch_args : Args := {|
  batch_size := 1;
  test_batch_size := 2;
  epochs := 1;
  lr := 0;
  gamma := 7 # 10;
  no_cuda := false;
  dry_run := false;
  seed := 1;
  log_interval := 199;
  save_model := false
|}.

(** A training set of 200 examples. *)
Definition long_train_set : list (Q * nat) := repeat (1 # 1, 1%nat)%Q 200.

(** * Properties *)

(** ** Batching *)

Lemma batch_sampler_concat {A : Type} (bs : nat) (l : list A) :
  forall batch, List.concat (batch_sampler bs batch l) = (batch ++ l)%list.
Proof.
  induction l as [|x l IH]; intros batch; simpl.
  - destruct batch; simpl; [reflexivity|].
    now rewrite !app_nil_r.
  - destruct (Nat.eqb _ bs); simpl; rewrite IH; simpl;
      now rewrite <- app_assoc.
Qed.

Lemma batch_sampler_first {A : Type} (bs : nat) (x : A) (l : list A) :
  exists b rest, batch_sampler bs [] (x :: l) = b :: rest.
Proof.
  destruct (batch_sampler bs [] (x :: l)) as [|b rest] eqn:E.
  - pose proof (batch_sampler_concat bs (x :: l) []) as H.
    rewrite E in H. discriminate H.
  - now exists b, rest.
Qed.

(** No batch of a pass is empty. *)
Lemma batch_sampler_nonempty {A : Type} (bs : nat) (l : list A) :
  forall batch, Forall (fun b => b <> []) (batch_sampler bs batch l).
Proof.
  induction l as [|x l IH]; intros batch; simpl.
  - destruct batch; constructor; [discriminate | constructor].
  - destruct (Nat.eqb _ bs).
    + constructor; [|apply IH]. destruct batch; discriminate.
    + apply IH.
Qed.

(** [len(loader)] is the number of batches of a pass. *)
Lemma batch_sampler_length {A : Type} (bs : nat) (l : list A) :
  (0 < bs)%nat ->
  forall batch,
    (List.length batch < bs)%nat ->
    List.length (batch_sampler bs batch l)
    = ceil_div (List.length batch + List.length l) bs.
Proof.
  intros Hbs. unfold ceil_div.
  induction l as [|x l IH]; intros batch Hk; cbn [batch_sampler].
  - destruct batch as [|y batch]; cbn [List.length] in *.
    + symmetry. apply Nat.div_small. lia.
    + apply Nat.div_unique with (r := List.length batch); lia.
  - rewrite length_app. cbn [List.length].
    destruct (Nat.eqb_spec (List.length batch + 1) bs) as [E|E];
      cbn [List.length].
    + rewrite (IH []) by (cbn [List.length]; lia). cbn [List.length].
      replace (List.length batch + S (List.length l) + bs - 1)%nat
        with (0 + List.length l + bs - 1 + 1 * bs)%nat by lia.
      rewrite Nat.div_add by lia. lia.
    + rewrite IH by (rewrite length_app; cbn [List.length]; lia).
      rewrite length_app. cbn [List.length]. f_equal. lia.
Qed.

(** ** Sums and counts over a pass *)


Lemma Permutation_filter_length {A : Type} (f : A -> bool) (l l' : list A) :
  Permutation l l' ->
  List.length (filter f l) = List.length (filter f l').
Proof.
  induction 1 as [|x l l' _ IH|x y l|l l' l'' _ IH1 _ IH2]; simpl.
  - reflexivity.
  - destruct (f x); simpl; congruence.
  - destruct (f x), (f y); reflexivity.
  - congruence.
Qed.


Lemma filter_length_le {A : Type} (f : A -> bool) (l : list A) :
  (List.length (filter f l) <= List.length l)%nat.
Proof.
  induction l as [|x l IH]; simpl; [lia|].
  destruct (f x); simpl; lia.
Qed.

(** A count out of a positive total is a fraction of one. *)
Lemma fraction_bounds (c n : nat) :
  (c <= n)%nat -> (0 < n)%nat ->
  (0 <= inject_Z (Z.of_nat c) / inject_Z (Z.of_nat n) <= 1)%Q.
Proof.
  intros Hc Hn.
  assert (Hpos : (0 < inject_Z (Z.of_nat n))%Q).
  { unfold Qlt, inject_Z; simpl. lia. }
  split.
  - apply Qle_shift_div_l; [exact Hpos|].
    rewrite Qmult_0_l. change 0%Q with (inject_Z 0).
    rewrite <- Zle_Qle. lia.
  - apply Qle_shift_div_r; [exact Hpos|].
    rewrite Qmult_1_l, <- Zle_Qle. lia.
Qed.

(** ** One pass of a loader *)
Section Passes.

Context {F : Torch}.

Lemma DataLoader_iter_eq (dl : DataLoader F) (w : World F) :
  DataLoader_iter dl w
  = Ok (batch_sampler (dl_batch_size dl) [] (pass_order dl w))
       (pass_world dl w).
Proof.
  unfold DataLoader_iter, pass_order, pass_world, bind, with_rng, ret.
  destruct (shuffle dl); [|reflexivity].
  destruct (randperm F (rng w) (dataset dl)); reflexivity.
Qed.

Lemma pass_order_perm (dl : DataLoader F) (w : World F) :
  sampler_permutes F -> Permutation (pass_order dl w) (dataset dl).
Proof.
  intros H. unfold pass_order. destruct (shuffle dl); [apply H | reflexivity].
Qed.

Lemma pass_world_emits (dl : DataLoader F) (w : World F) :
  stdout (pass_world dl w) = stdout w
  /\ wandb (pass_world dl w) = wandb w
  /\ calls (pass_world dl w) = calls w
  /\ mnist_cnn_pt (pass_world dl w) = mnist_cnn_pt w.
Proof.
  unfold pass_world. destruct (shuffle dl); simpl; auto.
Qed.

(** With a sampler that visits every example once, [len(loader)] counts
    the batches the loop of [train] or [test] gets. *)
Lemma DataLoader_len_batches (dl : DataLoader F) (w : World F) :
  sampler_permutes F ->
  (0 < dl_batch_size dl)%nat ->
  List.length (batch_sampler (dl_batch_size dl) [] (pass_order dl w))
  = DataLoader_len dl.
Proof.
  intros Hperm Hbs. rewrite batch_sampler_length by (simpl; lia).
  unfold DataLoader_len. simpl. f_equal.
  apply Permutation_length. now apply pass_order_perm.
Qed.

(** ** The evaluation loop *)

Lemma count_eq_batch (m : Module F) (b : Batch F) :
  count_eq (map (argmax F) (Module_call m (map fst b))) (map snd b)
  = List.length (filter (hit m) b).
Proof.
  unfold count_eq, Module_call.
  induction b as [|ex b IH]; simpl; [reflexivity|].
  unfold hit at 1. destruct (Nat.eqb _ (snd ex)); simpl; now rewrite IH.
Qed.




Lemma test_loop_correct (m : Module F) (batches : list (Batch F)) :
  forall l c,
    snd (test_loop m batches l c)
    = (c + List.length (filter (hit m) (List.concat batches)))%nat.
Proof.
  induction batches as [|b rest IH]; intros l c; simpl; [lia|].
  rewrite IH, count_eq_batch, filter_app, length_app.
  symmetry; apply Nat.add_assoc.
Qed.


(** The counters of a whole pass, in the words of the specification. *)
Lemma test_pass_correct (t : Train F) (w : World F) :
  sampler_permutes F ->
  snd (test_loop (model (in_eval t))
         (batch_sampler (dl_batch_size (test_loader t)) []
            (pass_order (test_loader t) w)) 0%Q 0%nat)
  = correct_count F (params (model t)) (dataset (test_loader t)).
Proof.
  intros H. rewrite test_loop_correct, batch_sampler_concat. simpl.
  unfold correct_count.
  apply (Permutation_filter_length (hit (model (in_eval t)))).
  now apply pass_order_perm.
Qed.


(** [Train.test], unfolded once and for all. *)
Lemma test_eq (t : Train F) (w : World F) :
  let w0 := pass_world (test_loader t) w in
  let r := test_loop (model (in_eval t))
             (batch_sampler (dl_batch_size (test_loader t)) []
                (pass_order (test_loader t) w)) 0%Q 0%nat in
  let n := List.length (dataset (test_loader t)) in
  let accuracy := (inject_Z (Z.of_nat (snd r)) / inject_Z (Z.of_nat n))%Q in
  let mean := float64 (fst r / inject_Z (Z.of_nat n)) in
  test t w
  = if (n =? 0)%nat then Raise ZeroDivisionError w0
    else Ok (accuracy, in_eval t)
           {| rng := rng w0;
              stdout := (stdout w
                         ++ [TestSummary mean (snd r) n
                               (100 * inject_Z (Z.of_nat (snd r))
                                  / inject_Z (Z.of_nat n))])%list;
              wandb := (wandb w ++ [WandbLog "test_loss" mean])%list;
              calls := (calls w ++ [CallTest accuracy])%list;
              mnist_cnn_pt := mnist_cnn_pt w |}.
Proof.
  intros w0 r n accuracy mean.
  destruct (pass_world_emits (test_loader t) w) as (Ho & Hw & Hc & Hs).
  unfold test, bind. fold (in_eval t).
  change (test_loader (in_eval t)) with (test_loader t).
  rewrite DataLoader_iter_eq. fold r.
  destruct r as [test_loss correct] eqn:Er. fold n.
  destruct (n =? 0)%nat; [reflexivity|].
  unfold wandb_emit, print, record_call, ret; simpl.
  subst w0 accuracy mean. simpl. rewrite Ho, Hw, Hc, Hs. reflexivity.
Qed.

End Passes.

(** ** Evaluation: [Train.test] *)
Section Evaluation.

Context {F : Torch}.

(** C3. Whatever [test] returns is the number of test examples whose
    highest-scoring class is their label, divided by the size of the test
    set, and lies between 0 and 1; and [test] returns a value unless the
    test set is empty. *)
Theorem test_returns_accuracy (t : Train F) (w : World F) :
  sampler_permutes F ->
  match test t w with
  | Ok (accuracy, _) _ =>
      accuracy = accuracy_spec F (params (model t)) (dataset (test_loader t))
      /\ (0 <= accuracy <= 1)%Q
  | Raise e _ => e = ZeroDivisionError /\ dataset (test_loader t) = []
  end.
Proof.
  intros Hperm. rewrite test_eq.
  destruct (List.length (dataset (test_loader t)) =? 0)%nat eqn:En.
  - split; [reflexivity|].
    apply Nat.eqb_eq in En. now apply length_zero_iff_nil.
  - apply Nat.eqb_neq in En.
    rewrite (test_pass_correct t w Hperm). split; [reflexivity|].
    apply fraction_bounds; [apply filter_length_le | lia].
Qed.


(** C7. A call of [test] that evaluates a non-empty test set returns
    with the model's parameters, their gradients and the optimizer as
    they were before the call. *)
Theorem test_keeps_parameters (t : Train F) (w : World F) :
  dataset (test_loader t) <> [] ->
  exists accuracy t' w',
    test t w = Ok (accuracy, t') w'
    /\ params (model t') = params (model t)
    /\ grads (model t') = grads (model t)
    /\ optimizer t' = optimizer t.
Proof.
  intros Hne. rewrite test_eq.
  destruct (List.length (dataset (test_loader t)) =? 0)%nat eqn:En.
  - apply Nat.eqb_eq, length_zero_iff_nil in En. contradiction.
  - do 3 eexists. split; [reflexivity|]. simpl. auto.
Qed.

(** C10. [test] divides by the size of the test set unguarded: on an
    empty test set it raises [ZeroDivisionError] and returns nothing; on
    a non-empty one it returns an accuracy, which is between 0 and 1. *)
Theorem test_divides_unguarded (t : Train F) (w : World F) :
  sampler_permutes F ->
  (dataset (test_loader t) = [] ->
   outcome_of (test t w) = Raised ZeroDivisionError)
  /\ (dataset (test_loader t) <> [] ->
      exists accuracy,
        outcome_of (test t w) = Returned (accuracy, in_eval t)
        /\ (0 <= accuracy <= 1)%Q).
Proof.
  intros Hperm. rewrite test_eq. split; intros Hd.
  - rewrite Hd. reflexivity.
  - destruct (List.length (dataset (test_loader t)) =? 0)%nat eqn:En.
    + apply Nat.eqb_eq, length_zero_iff_nil in En. contradiction.
    + apply Nat.eqb_neq in En. eexists. split; [reflexivity|].
      rewrite (test_pass_correct t w Hperm).
      apply fraction_bounds; [apply filter_length_le | lia].
Qed.

End Evaluation.

(** ** Training: [Train.train] *)
Section Training.

Context {F : Torch}.

(** What one gradient update leaves alone, and what it counts. *)
Lemma train_batch_frame (t : Train F) (b : Batch F) :
  args (fst (train_batch t b)) = args t
  /\ train_loader (fst (train_batch t b)) = train_loader t
  /\ test_loader (fst (train_batch t b)) = test_loader t
  /\ scheduler (fst (train_batch t b)) = scheduler t
  /\ opt_lr (optimizer (fst (train_batch t b))) = opt_lr (optimizer t)
  /\ opt_step_count (optimizer (fst (train_batch t b)))
     = S (opt_step_count (optimizer t)).
Proof.
  unfold train_batch, Optimizer_step, loss_backward, zero_grad. simpl.
  destruct (Adam_update F _ _ _ _); simpl. auto 10.
Qed.

(** One turn of the loop of [train]. *)
Lemma train_loop_cons (t : Train F) (epoch i : nat) (data : Batch F)
  (rest : list (Batch F)) (w : World F) :
  let t' := fst (train_batch t data) in
  let loss := snd (train_batch t data) in
  let w' := {| rng := rng w;
               stdout := (stdout w
                 ++ [TrainStatus epoch (i * List.length data)
                       (List.length (dataset (train_loader t)))
                       (100 * inject_Z (Z.of_nat i)
                          / inject_Z (Z.of_nat (DataLoader_len (train_loader t))))
                       loss])%list;
               wandb := (wandb w ++ [WandbLog "training_loss" loss])%list;
               calls := calls w; mnist_cnn_pt := mnist_cnn_pt w |} in
  train_loop t epoch i (data :: rest) w
  = if log_interval (args t) =? 0 then Raise ZeroDivisionError w
    else if Z.of_nat i mod log_interval (args t) =? 0
         then if dry_run (args t) then Ok t' w'
              else train_loop t' epoch (S i) rest w'
         else train_loop t' epoch (S i) rest w.
Proof.
  intros t' loss w'. subst t' loss w'.
  destruct (train_batch_frame t data) as (Ha & Hl & _).
  simpl. destruct (train_batch t data) as [t1 l1]. simpl in *.
  rewrite Ha, Hl.
  destruct (log_interval (args t) =? 0); [reflexivity|].
  destruct (Z.of_nat i mod log_interval (args t) =? 0); [|reflexivity].
  unfold bind, wandb_emit, print. simpl.
  destruct (dry_run (args t)); reflexivity.
Qed.

Lemma train_eq (t : Train F) (epoch : nat) (w : World F) :
  train t epoch w
  = train_loop (in_training t) epoch 0 (train_batches t w)
      (pass_world (train_loader t) (with_call (CallTrain epoch) w)).
Proof.
  unfold train, bind, record_call. fold (with_call (CallTrain epoch) w).
  fold (in_training t).
  change (train_loader (in_training t)) with (train_loader t).
  now rewrite DataLoader_iter_eq.
Qed.

Lemma train_batches_first (t : Train F) (w : World F) :
  sampler_permutes F ->
  dataset (train_loader t) <> [] ->
  exists data rest, train_batches t w = data :: rest.
Proof.
  intros Hperm Hne. unfold train_batches.
  pose proof (pass_order_perm (train_loader t) w Hperm) as HP.
  destruct (pass_order (train_loader t) w) as [|x l].
  - apply Permutation_nil in HP. contradiction.
  - apply batch_sampler_first.
Qed.

(** With a usable logging interval the loop runs to its end. *)
Lemma train_loop_returns (epoch : nat) (batches : list (Batch F)) :
  forall (t : Train F) (i : nat) (w : World F),
    log_interval (args t) <> 0 ->
    exists t' w',
      train_loop t epoch i batches w = Ok t' w'
      /\ args t' = args t
      /\ train_loader t' = train_loader t
      /\ test_loader t' = test_loader t
      /\ calls w' = calls w
      /\ opt_lr (optimizer t') = opt_lr (optimizer t).
Proof.
  induction batches as [|data rest IH]; intros t i w Hli.
  - exists t, w. simpl. auto 10.
  - rewrite train_loop_cons.
    destruct (train_batch_frame t data) as (Ha & Hl & Ht & _ & Hr & _).
    apply Z.eqb_neq in Hli as Hli'. rewrite Hli'.
    assert (Hnext : log_interval (args (fst (train_batch t data))) <> 0)
      by now rewrite Ha.
    destruct (Z.of_nat i mod log_interval (args t) =? 0).
    + destruct (dry_run (args t)).
      * do 2 eexists. split; [reflexivity|]. simpl. auto 10.
      * edestruct (IH (fst (train_batch t data)) (S i)) as (t' & w' & E & R);
          [exact Hnext|].
        exists t', w'. split; [exact E|].
        destruct R as (R1 & R2 & R3 & R4 & R5).
        simpl in R4. repeat split; congruence.
    + edestruct (IH (fst (train_batch t data)) (S i)) as (t' & w' & E & R);
        [exact Hnext|].
      exists t', w'. split; [exact E|].
      destruct R as (R1 & R2 & R3 & R4 & R5). repeat split; congruence.
Qed.

Lemma train_returns (t : Train F) (epoch : nat) (w : World F) :
  log_interval (args t) <> 0 ->
  exists t' w',
    train t epoch w = Ok t' w'
    /\ args t' = args t
    /\ train_loader t' = train_loader t
    /\ test_loader t' = test_loader t
    /\ calls w' = (calls w ++ [CallTrain epoch])%list
    /\ opt_lr (optimizer t') = opt_lr (optimizer t).
Proof.
  intros Hli. rewrite train_eq.
  edestruct (train_loop_returns epoch (train_batches t w) (in_training t) 0)
    as (t' & w' & E & R1 & R2 & R3 & R4 & R5); [exact Hli|].
  exists t', w'. split; [exact E|].
  destruct (pass_world_emits (train_loader t) (with_call (CallTrain epoch) w))
    as (_ & _ & Hc & _).
  rewrite R4, Hc. simpl in *. auto 10.
Qed.

(** C4. With the dry-run flag set, a usable logging interval and a
    non-empty training set, one call of [train] applies the gradient
    update of the first batch of the pass and of no other batch, logs
    that batch (one status line, one metrics event) and returns: the
    optimizer has stepped exactly once. *)
Theorem train_dry_run_one_batch (t : Train F) (epoch : nat) (w : World F) :
  sampler_permutes F ->
  dry_run (args t) = true ->
  log_interval (args t) <> 0 ->
  dataset (train_loader t) <> [] ->
  exists data rest loss t' w' percent,
    train_batches t w = data :: rest
    /\ train_batch (in_training t) data = (t', loss)
    /\ train t epoch w = Ok t' w'
    /\ opt_step_count (optimizer t') = S (opt_step_count (optimizer t))
    /\ stdout w'
       = (stdout w
          ++ [TrainStatus epoch 0 (List.length (dataset (train_loader t)))
                percent loss])%list
    /\ wandb w' = (wandb w ++ [WandbLog "training_loss" loss])%list.
Proof.
  intros Hperm Hdry Hli Hne.
  destruct (train_batches_first t w Hperm Hne) as (data & rest & Eb).
  destruct (train_batch_frame (in_training t) data)
    as (_ & _ & _ & _ & _ & Hcount).
  destruct (pass_world_emits (train_loader t) (with_call (CallTrain epoch) w))
    as (Ho & Hw & _ & _).
  exists data, rest, (snd (train_batch (in_training t) data)),
    (fst (train_batch (in_training t) data)).
  do 2 eexists. split; [exact Eb|].
  split; [now destruct (train_batch (in_training t) data)|].
  rewrite train_eq, Eb, train_loop_cons.
  change (args (in_training t)) with (args t).
  apply Z.eqb_neq in Hli. rewrite Hli, Zmod_0_l, Hdry. simpl.
  split; [reflexivity|]. rewrite Ho, Hw. simpl.
  split; [exact Hcount|]. split; reflexivity.
Qed.

(** C2, as the code has it. With batches of 2 over a training set of 4
    examples, a logging interval of 1 and no dry run, one call of [train]
    prints exactly two status lines; their batch-progress fields count
    the examples of the batches before the logged one and read
    "0/4 (0%)" and then "2/4 (50%)". *)
Theorem train_progress_fields (t : Train F) (epoch : nat) (w : World F) :
  sampler_permutes F ->
  List.length (dataset (train_loader t)) = 4%nat ->
  dl_batch_size (train_loader t) = 2%nat ->
  log_interval (args t) = 1 ->
  dry_run (args t) = false ->
  exists t' w' line1 line2,
    train t epoch w = Ok t' w'
    /\ stdout w' = (stdout w ++ [line1; line2])%list
    /\ progress_field line1 = "0/4 (0%)"%string
    /\ progress_field line2 = "2/4 (50%)"%string.
Proof.
  intros Hperm Hlen Hbs Hli Hdry.
  assert (HP : List.length (pass_order (train_loader t) w) = 4%nat).
  { rewrite <- Hlen. apply Permutation_length.
    now apply pass_order_perm. }
  destruct (pass_world_emits (train_loader t) (with_call (CallTrain epoch) w))
    as (Ho & _).
  rewrite train_eq. unfold train_batches. rewrite Hbs.
  destruct (pass_order (train_loader t) w) as [|a [|b [|c [|d [|]]]]];
    try discriminate HP.
  simpl batch_sampler.
  rewrite train_loop_cons.
  destruct (train_batch_frame (in_training t) [a; b]) as (Ha & Hl & _).
  change (args (in_training t)) with (args t) in *.
  change (train_loader (in_training t)) with (train_loader t) in *.
  rewrite Hli, Hdry. simpl Z.eqb. cbv iota.
  rewrite train_loop_cons, Ha, Hl, Hli, Hdry. simpl Z.eqb. cbv iota.
  unfold DataLoader_len. rewrite Hlen, Hbs.
  do 4 eexists. split; [reflexivity|]. simpl stdout.
  rewrite Ho. simpl stdout. rewrite <- app_assoc. simpl.
  split; [reflexivity|]. split; reflexivity.
Qed.

End Training.

(** ** One trial: [objective] *)

Lemma last_cons_default {A : Type} (l : list A) :
  forall x d, last (x :: l) d = last l x.
Proof.
  induction l as [|y l IH]; intros x d; [reflexivity|].
  change (last (x :: y :: l) d) with (last (y :: l) d).
  now rewrite !IH.
Qed.

Section Objective.

Context {F : Torch}.

(** A schedule of step size 1 never fails, and multiplies the rate of
    its own optimizer without stepping it. *)
Lemma StepLR_step_returns (s : StepLR) (o : Optimizer F) (w : World F) :
  step_size s = 1 ->
  exists s' o',
    StepLR_step s o w = Ok (s', o') (with_call CallSchedulerStep w)
    /\ step_size s' = 1
    /\ opt_step_count o' = opt_step_count o.
Proof.
  intros Hs. unfold StepLR_step, bind, record_call.
  fold (with_call CallSchedulerStep w). rewrite Hs. simpl Z.eqb. cbv iota.
  rewrite Z.mod_1_r. simpl.
  destruct (last_epoch s + 1 =? 0); simpl; unfold ret;
    do 2 eexists; (split; [reflexivity|]); simpl; auto.
Qed.

(** On a non-empty test set the evaluation returns, in evaluation mode,
    having recorded its call. *)
Lemma test_returns (t : Train F) (w : World F) :
  dataset (test_loader t) <> [] ->
  exists accuracy w',
    test t w = Ok (accuracy, in_eval t) w'
    /\ calls w' = (calls w ++ [CallTest accuracy])%list.
Proof.
  intros Hne. rewrite test_eq.
  destruct (List.length (dataset (test_loader t)) =? 0)%nat eqn:En.
  - apply Nat.eqb_eq, length_zero_iff_nil in En. contradiction.
  - do 2 eexists. split; reflexivity.
Qed.

(** With positive batch sizes and a learning rate that is not negative
    the constructor returns a trainer of the configuration, on the two
    data sets. *)
Lemma Train_init_returns (a : Args) (w : World F) :
  0 < batch_size a ->
  0 < test_batch_size a ->
  (0 <= lr a)%Q ->
  exists t w',
    Train_init F a w = Ok t w'
    /\ args t = a
    /\ dataset (test_loader t) = MNIST F false
    /\ dataset (train_loader t) = MNIST F true
    /\ calls w' = calls w
    /\ opt_lr (optimizer t) = lr a.
Proof.
  intros Hb Ht Hlr.
  unfold Train_init, bind, set_rng, wandb_emit, DataLoader_init, Adam.
  apply Z.leb_gt in Hb, Ht. apply Qle_bool_iff in Hlr.
  rewrite Hb, Ht, Hlr. unfold ret, with_rng. simpl.
  destruct (Net_init F (manual_seed F (seed a))) as [p r].
  do 2 eexists. split; [reflexivity|]. simpl. auto 10.
Qed.

(** The epochs of a trial: each one trains, then evaluates, then advances
    the schedule; the frame keeps the last accuracy. *)
Lemma objective_loop_returns (n : nat) :
  forall (first : nat) (fr : Frame F) (w : World F),
    log_interval (args (fr_t fr)) <> 0 ->
    dataset (test_loader (fr_t fr)) <> [] ->
    step_size (fr_scheduler fr) = 1 ->
    exists accs fr' w',
      List.length accs = n
      /\ objective_loop fr (seq first n) w = Ok fr' w'
      /\ calls w' = (calls w ++ epoch_calls first accs)%list
      /\ fr_accuracy fr' = last (map Some accs) (fr_accuracy fr)
      /\ args (fr_t fr') = args (fr_t fr)
      /\ opt_step_count (fr_optimizer fr') = opt_step_count (fr_optimizer fr)
      /\ opt_lr (optimizer (fr_t fr')) = opt_lr (optimizer (fr_t fr))
      /\ runs_epochs first accs fr w fr' w'.
Proof.
  induction n as [|n IH]; intros first fr w Hli Hne Hs.
  - exists [], fr, w. simpl. rewrite app_nil_r.
    repeat split; constructor.
  - simpl seq. simpl objective_loop. unfold bind.
    destruct (train_returns (fr_t fr) first w Hli)
      as (t1 & w1 & E1 & Ha1 & _ & Hte1 & Hc1 & Hr1).
    rewrite E1.
    assert (Hne1 : dataset (test_loader t1) <> []) by now rewrite Hte1.
    destruct (test_returns t1 w1 Hne1) as (accuracy & w2' & E2 & Hc2).
    rewrite E2.
    destruct (StepLR_step_returns (fr_scheduler fr) (fr_optimizer fr) w2' Hs)
      as (s' & o' & E3 & Hs' & Ho').
    rewrite E3. simpl fst. simpl snd.
    edestruct (IH (S first)
                 {| fr_t := in_eval t1; fr_optimizer := o';
                    fr_scheduler := s'; fr_accuracy := Some accuracy |}
                 (with_call CallSchedulerStep w2'))
      as (accs & fr' & w' & Hlen & E & Hc & Hacc & Ha & Hcount & Hrate
          & Hruns).
    { simpl. now rewrite Ha1. }
    { simpl. exact Hne1. }
    { exact Hs'. }
    exists (accuracy :: accs), fr', w'.
    split; [simpl; now rewrite Hlen|].
    split; [exact E|].
    split.
    { rewrite Hc. simpl calls. rewrite Hc2, Hc1.
      unfold epoch_calls. simpl. rewrite <- !app_assoc. reflexivity. }
    split.
    { rewrite Hacc. simpl map. now rewrite last_cons_default. }
    split; [rewrite Ha; simpl; exact Ha1|].
    split; [rewrite Hcount; simpl; exact Ho'|].
    split; [rewrite Hrate; simpl; exact Hr1|].
    exact (runs_one_more first accuracy accs fr w t1 w1 (in_eval t1) w2'
             s' o' (with_call CallSchedulerStep w2') fr' w'
             E1 E2 E3 Hruns).
Qed.

(** C6. For a trial whose sampled epoch count is [e >= 1], on a
    configuration with positive batch sizes, a usable logging interval
    and learning rates, configured and sampled, that are not negative,
    and a non-empty test set, [objective] returns after exactly [e]
    iterations on the trainer it has constructed, each of them one call
    of [train], then one of [test] on the trainer that came out of
    [train], then one step of the schedule, every call starting where
    the call before ended; what it returns is the accuracy the last call
    of [test] returned, and the process is then in the state the last
    step left, the saved model apart. *)
Theorem objective_runs_epochs (a : Args) (trial : Trial) (w : World F)
  (e : nat) :
  suggest_int trial "epochs" 1 1 = Z.of_nat e ->
  (1 <= e)%nat ->
  0 < batch_size a ->
  0 < test_batch_size a ->
  log_interval a <> 0 ->
  (0 <= lr a)%Q ->
  (0 <= suggest_float trial "lr" (1 # 100000) (1 # 10))%Q ->
  MNIST F false <> [] ->
  exists earlier accuracy w' t0 w0 fr w1,
    objective F a trial w = Ok accuracy w'
    /\ S (List.length earlier) = e
    /\ calls w' = (calls w ++ epoch_calls 0 (earlier ++ [accuracy]))%list
    /\ Train_init F a w = Ok t0 w0
    /\ runs_epochs 0 (earlier ++ [accuracy])
         (Build_Frame F t0
            (Build_Optimizer F
               (suggest_float trial "lr" (1 # 100000) (1 # 10))
               (Adam_init F) 0)
            (StepLR_init 1 (gamma a)) None)
         w0 fr w1
    /\ fr_accuracy fr = Some accuracy
    /\ (if save_model a then torch_save F (params (model (fr_t fr)))
        else ret tt) w1 = Ok tt w'.
Proof.
  intros He Hge Hb Htb Hli Hlr Hrate Hne.
  destruct (Train_init_returns a w Hb Htb Hlr)
    as (t & w0 & E0 & Ha & Hte & _ & Hc0 & _).
  edestruct (objective_loop_returns e 0
               {| fr_t := t;
                  fr_optimizer :=
                    {| opt_lr := suggest_float trial "lr" (1 # 100000) (1 # 10);
                       opt_state := Adam_init F; opt_step_count := 0 |};
                  fr_scheduler := StepLR_init 1 (gamma (args t));
                  fr_accuracy := None |} w0)
    as (accs & fr' & w' & Hlen & E & Hc & Hacc & Ha' & _ & _ & Hruns).
  { simpl. now rewrite Ha. }
  { simpl. now rewrite Hte. }
  { reflexivity. }
  destruct (exists_last (l := accs)) as (earlier & accuracy & Haccs).
  { intros ->. simpl in Hlen. lia. }
  subst accs. rewrite map_app in Hacc. simpl map in Hacc.
  rewrite last_last in Hacc. simpl in Ha'. rewrite Ha in Ha'.
  exists earlier, accuracy.
  apply Qle_bool_iff in Hrate.
  unfold objective, objective_frame, bind, Adam.
  rewrite E0, Hrate, He, Nat2Z.id. unfold ret at 1. rewrite E, Ha'.
  rewrite Ha in E, Hruns.
  assert (Hn : S (List.length earlier) = e)
    by (rewrite length_app in Hlen; simpl in Hlen; lia).
  destruct (save_model a); unfold torch_save, ret; rewrite Hacc;
    eexists; exists t, w0, fr', w';
    (split; [reflexivity|]); (split; [exact Hn|]);
    (split; [simpl; rewrite Hc, Hc0; reflexivity|]);
    (split; [reflexivity|]); (split; [exact Hruns|]);
    (split; [exact Hacc | reflexivity]).
Qed.

(** Under the same conditions, at the [return] of [objective] the
    optimizer built from the sampled rate has never stepped, and the
    trainer's own optimizer still has the configured rate. *)
Lemma objective_frame_sampled_optimizer_idle (a : Args) (trial : Trial)
  (w : World F) :
  0 < batch_size a ->
  0 < test_batch_size a ->
  log_interval a <> 0 ->
  (0 <= lr a)%Q ->
  (0 <= suggest_float trial "lr" (1 # 100000) (1 # 10))%Q ->
  MNIST F false <> [] ->
  exists fr w',
    objective_frame F a trial w = Ok fr w'
    /\ opt_step_count (fr_optimizer fr) = 0%nat
    /\ opt_lr (optimizer (fr_t fr)) = lr a.
Proof.
  intros Hb Htb Hli Hlr Hrate Hne.
  destruct (Train_init_returns a w Hb Htb Hlr)
    as (t & w0 & E0 & Ha & Hte & _ & _ & Hr0).
  edestruct (objective_loop_returns
               (Z.to_nat (suggest_int trial "epochs" 1 1)) 0
               {| fr_t := t;
                  fr_optimizer :=
                    {| opt_lr := suggest_float trial "lr" (1 # 100000) (1 # 10);
                       opt_state := Adam_init F; opt_step_count := 0 |};
                  fr_scheduler := StepLR_init 1 (gamma (args t));
                  fr_accuracy := None |} w0)
    as (accs & fr' & w' & _ & E & _ & _ & _ & Hcount & Hr & _).
  { simpl. now rewrite Ha. }
  { simpl. now rewrite Hte. }
  { reflexivity. }
  apply Qle_bool_iff in Hrate.
  unfold objective_frame, bind, Adam.
  rewrite E0, Hrate. unfold ret at 1. rewrite E.
  destruct (save_model (args (fr_t fr'))); unfold torch_save, ret;
    do 2 eexists; (split; [reflexivity|]);
    (split; [exact Hcount | rewrite Hr; exact Hr0]).
Qed.

End Objective.

(** ** What a trial depends on *)
Section Agreement.

Context {F : Torch}.

Lemma agree_ret {A B} (R : A -> B -> Prop) (a : A) (b : B) :
  R a b -> agree (F := F) R (ret a) (ret b).
Proof. intros H w1 w2 Hr. simpl. auto. Qed.

Lemma agree_raise {A B} (R : A -> B -> Prop) (e : exn) :
  agree (F := F) R (raise e) (raise e).
Proof. intros w1 w2 Hr. simpl. auto. Qed.

Lemma ends_alike_bind {A B A' B'} (R : A -> B -> Prop) (S : A' -> B' -> Prop)
  (r1 : result (World F) A) (r2 : result (World F) B)
  (k1 : A -> Py F A') (k2 : B -> Py F B') :
  ends_alike R r1 r2 ->
  (forall a b, R a b -> agree S (k1 a) (k2 b)) ->
  ends_alike S
    (match r1 with Ok a w => k1 a w | Raise e w => Raise e w end)
    (match r2 with Ok b w => k2 b w | Raise e w => Raise e w end).
Proof.
  intros H Hk. destruct r1, r2; simpl in H; try contradiction;
    destruct H as [H Hr].
  - now apply Hk.
  - simpl. auto.
Qed.

Lemma agree_bind {A B A' B'} (R : A -> B -> Prop) (S : A' -> B' -> Prop)
  (m1 : Py F A) (m2 : Py F B) (k1 : A -> Py F A') (k2 : B -> Py F B') :
  agree R m1 m2 ->
  (forall a b, R a b -> agree S (k1 a) (k2 b)) ->
  agree S (bind m1 k1) (bind m2 k2).
Proof.
  intros H Hk w1 w2 Hr. unfold bind.
  apply (ends_alike_bind R); [now apply H | exact Hk].
Qed.

Lemma resets_bind {A B A' B'} (R : A -> B -> Prop) (S : A' -> B' -> Prop)
  (m1 : Py F A) (m2 : Py F B) (k1 : A -> Py F A') (k2 : B -> Py F B') :
  resets R m1 m2 ->
  (forall a b, R a b -> agree S (k1 a) (k2 b)) ->
  resets S (bind m1 k1) (bind m2 k2).
Proof.
  intros H Hk w1 w2. unfold bind.
  apply (ends_alike_bind R); [apply H | exact Hk].
Qed.

(** Emitting does not touch the generator, whatever is emitted. *)
Lemma agree_print (l1 l2 : Line) :
  agree (F := F) (fun _ _ => True) (print F l1) (print F l2).
Proof. intros w1 w2 Hr. simpl. auto. Qed.

Lemma agree_wandb_emit (e1 e2 : WandbEvent) :
  agree (F := F) (fun _ _ => True) (wandb_emit F e1) (wandb_emit F e2).
Proof. intros w1 w2 Hr. simpl. auto. Qed.

Lemma agree_record_call (c1 c2 : Call) :
  agree (F := F) (fun _ _ => True) (record_call F c1) (record_call F c2).
Proof. intros w1 w2 Hr. simpl. auto. Qed.

Lemma agree_torch_save (p1 p2 : Params F) :
  agree (F := F) (fun _ _ => True) (torch_save F p1) (torch_save F p2).
Proof. intros w1 w2 Hr. simpl. auto. Qed.

Lemma agree_with_rng {A} (f : Rng F -> A * Rng F) :
  agree eq (with_rng F f) (with_rng F f).
Proof.
  intros w1 w2 Hr. unfold with_rng. rewrite Hr.
  destruct (f (rng w2)). simpl. auto.
Qed.

(** Seeding forgets the generator state. *)
Lemma resets_set_rng (r : Rng F) :
  resets (fun _ _ => True) (set_rng F r) (set_rng F r).
Proof. intros w1 w2. simpl. auto. Qed.

Lemma agree_DataLoader_init (ds : list (Example F)) (bs : Z) (sh : bool) :
  agree eq (DataLoader_init F ds bs sh) (DataLoader_init F ds bs sh).
Proof.
  unfold DataLoader_init. destruct (bs <=? 0);
    [apply agree_raise | now apply agree_ret].
Qed.

(** Two optimizers built at rates that are not negative. *)
Lemma agree_Adam (rate1 rate2 : Q) :
  (0 <= rate1)%Q -> (0 <= rate2)%Q ->
  agree (fun _ _ => True) (Adam F rate1) (Adam F rate2).
Proof.
  intros H1 H2. apply Qle_bool_iff in H1, H2. unfold Adam.
  rewrite H1, H2. now apply agree_ret.
Qed.

Lemma agree_Adam_same (rate : Q) : agree eq (Adam F rate) (Adam F rate).
Proof.
  unfold Adam. destruct (Qle_bool 0 rate);
    [now apply agree_ret | apply agree_raise].
Qed.

Lemma agree_DataLoader_iter (dl : DataLoader F) :
  agree eq (DataLoader_iter dl) (DataLoader_iter dl).
Proof.
  unfold DataLoader_iter. apply (agree_bind eq).
  - destruct (shuffle dl); [apply agree_with_rng | now apply agree_ret].
  - intros a b <-. now apply agree_ret.
Qed.

Lemma agree_train_loop (epoch : nat) (batches : list (Batch F)) :
  forall (t : Train F) (i : nat),
    agree eq (train_loop t epoch i batches) (train_loop t epoch i batches).
Proof.
  induction batches as [|data rest IH]; intros t i; simpl.
  - now apply agree_ret.
  - destruct (train_batch t data) as [t' loss].
    destruct (log_interval (args t') =? 0); [apply agree_raise|].
    destruct (Z.of_nat i mod log_interval (args t') =? 0); [|apply IH].
    apply (agree_bind (fun _ _ => True)); [apply agree_wandb_emit|].
    intros _ _ _.
    apply (agree_bind (fun _ _ => True)); [apply agree_print|].
    intros _ _ _.
    destruct (dry_run (args t')); [now apply agree_ret | apply IH].
Qed.

Lemma agree_train (t : Train F) (epoch : nat) :
  agree eq (train t epoch) (train t epoch).
Proof.
  unfold train.
  apply (agree_bind (fun _ _ => True)); [apply agree_record_call|].
  intros _ _ _.
  apply (agree_bind eq); [apply agree_DataLoader_iter|].
  intros a b <-. apply agree_train_loop.
Qed.

Lemma agree_test (t : Train F) : agree eq (test t) (test t).
Proof.
  unfold test.
  apply (agree_bind eq); [apply agree_DataLoader_iter|].
  intros a b <-.
  destruct (test_loop _ a 0%Q 0%nat) as [test_loss correct].
  destruct (_ =? 0)%nat; [apply agree_raise|].
  apply (agree_bind (fun _ _ => True)); [apply agree_wandb_emit|].
  intros _ _ _.
  apply (agree_bind (fun _ _ => True)); [apply agree_print|].
  intros _ _ _.
  apply (agree_bind (fun _ _ => True)); [apply agree_record_call|].
  intros _ _ _. now apply agree_ret.
Qed.

(** Two schedules of step size 1 on two optimizers: both steps return. *)
Lemma agree_StepLR_step (s1 s2 : StepLR) (o1 o2 : Optimizer F) :
  step_size s1 = 1 -> step_size s2 = 1 ->
  agree (fun r1 r2 => step_size (fst r1) = 1 /\ step_size (fst r2) = 1)
        (StepLR_step s1 o1) (StepLR_step s2 o2).
Proof.
  intros H1 H2 w1 w2 Hr.
  destruct (StepLR_step_returns s1 o1 w1 H1) as (s1' & o1' & E1 & S1 & _).
  destruct (StepLR_step_returns s2 o2 w2 H2) as (s2' & o2' & E2 & S2 & _).
  rewrite E1, E2. simpl. auto.
Qed.

(** The loop of a trial reads nothing of the optimizer and schedule that
    [objective] builds from the sampled point. *)
Lemma agree_objective_loop (range : list nat) :
  forall fr1 fr2 : Frame F,
    same_trainer fr1 fr2 ->
    agree same_trainer (objective_loop fr1 range) (objective_loop fr2 range).
Proof.
  induction range as [|epoch rest IH]; intros fr1 fr2 Hfr; simpl.
  - now apply agree_ret.
  - destruct Hfr as (Ht & Hacc & Hs1 & Hs2). rewrite Ht.
    apply (agree_bind eq); [apply agree_train|]. intros t t' <-.
    apply (agree_bind eq); [apply agree_test|]. intros r r' <-.
    eapply agree_bind; [now apply agree_StepLR_step|].
    intros so1 so2 [Hso1 Hso2]. apply IH.
    repeat split; simpl; assumption.
Qed.

(** The constructor seeds the generator first: what it builds does not
    depend on the process state it starts in. *)
Lemma resets_Train_init (a : Args) :
  resets eq (Train_init F a) (Train_init F a).
Proof.
  unfold Train_init.
  apply (resets_bind (fun _ _ => True)); [apply resets_set_rng|].
  intros _ _ _.
  apply (agree_bind (fun _ _ => True)); [apply agree_wandb_emit|].
  intros _ _ _.
  apply (agree_bind eq); [apply agree_DataLoader_init|]. intros trl ? <-.
  apply (agree_bind eq); [apply agree_DataLoader_init|]. intros tel ? <-.
  apply (agree_bind eq); [apply agree_with_rng|]. intros p ? <-.
  apply (agree_bind eq); [apply agree_Adam_same|]. intros o ? <-.
  now apply agree_ret.
Qed.

Lemma suggested_epochs (trial : Trial) :
  suggests_in_range trial -> suggest_int trial "epochs" 1 1 = 1.
Proof.
  intros [H _]. specialize (H "epochs"%string 1 1). lia.
Qed.

Lemma suggested_rate (trial : Trial) :
  suggests_in_range trial ->
  (0 <= suggest_float trial "lr" (1 # 100000) (1 # 10))%Q.
Proof.
  intros [_ H].
  destruct (H "lr"%string (1 # 100000) (1 # 10))%Q as [Hlo _];
    [discriminate|].
  apply Qle_trans with (1 # 100000)%Q; [discriminate | exact Hlo].
Qed.

Lemma resets_objective_frame (a : Args) (trial1 trial2 : Trial) :
  suggests_in_range trial1 ->
  suggests_in_range trial2 ->
  resets same_trainer (objective_frame F a trial1) (objective_frame F a trial2).
Proof.
  intros H1 H2. unfold objective_frame.
  rewrite (suggested_epochs trial1 H1), (suggested_epochs trial2 H2).
  apply (resets_bind eq); [apply resets_Train_init|]. intros t ? <-.
  apply (agree_bind (fun _ _ => True));
    [apply agree_Adam; now apply suggested_rate|].
  intros o1 o2 _.
  apply (agree_bind same_trainer).
  - apply agree_objective_loop. repeat split.
  - intros fr1 fr2 Hfr.
    apply (agree_bind (fun _ _ => True)).
    + destruct Hfr as (-> & _).
      destruct (save_model (args (fr_t fr2)));
        [apply agree_torch_save | now apply agree_ret].
    + intros _ _ _. now apply agree_ret.
Qed.

(** C9. Whatever two trials of a search sample, and in whatever process
    states they start, [objective] ends the same way in both: it returns
    the same accuracy, or raises the same exception. The trainers they
    leave behind are equal too, parameters included: the sampled
    learning rate has reached no parameter update. *)
Theorem objective_same_for_all_trials (a : Args) (trial1 trial2 : Trial)
  (w1 w2 : World F) :
  suggests_in_range trial1 ->
  suggests_in_range trial2 ->
  outcome_of (objective F a trial1 w1) = outcome_of (objective F a trial2 w2)
  /\ (forall fr1 w1' fr2 w2',
        objective_frame F a trial1 w1 = Ok fr1 w1' ->
        objective_frame F a trial2 w2 = Ok fr2 w2' ->
        fr_t fr1 = fr_t fr2).
Proof.
  intros H1 H2.
  pose proof (resets_objective_frame a trial1 trial2 H1 H2 w1 w2) as H.
  split.
  - unfold objective, bind.
    destruct (objective_frame F a trial1 w1) as [fr1 w1'|e1 w1'],
             (objective_frame F a trial2 w2) as [fr2 w2'|e2 w2'];
      simpl in H; try contradiction.
    + destruct H as ((_ & Hacc & _) & _). rewrite Hacc.
      destruct (fr_accuracy fr2); reflexivity.
    + destruct H as [-> _]. reflexivity.
  - intros fr1 w1' fr2 w2' E1 E2. rewrite E1, E2 in H.
    simpl in H. now destruct H as ((Ht & _) & _).
Qed.

End Agreement.

(** ** Runs from scratch *)
Section Runs.

Context {F : Torch}.

(** C8. Two runs of one training epoch from scratch under the same
    configuration, hence the same seed and the same data, print the same
    loss values at the same logged steps and end in the same way, in
    whatever state the generator was when each process started. *)
Theorem run_epoch_deterministic (a : Args) (epoch : nat) (r1 r2 : Rng F) :
  map status_loss (stdout (world_of (run_epoch F a epoch (boot F r1))))
  = map status_loss (stdout (world_of (run_epoch F a epoch (boot F r2))))
  /\ outcome_of (run_epoch F a epoch (boot F r1))
     = outcome_of (run_epoch F a epoch (boot F r2)).
Proof.
  assert (E : run_epoch F a epoch (boot F r1)
              = run_epoch F a epoch (boot F r2)) by reflexivity.
  rewrite E. split; reflexivity.
Qed.

End Runs.

(** ** The harness on the small framework *)

Lemma toy_sampler_permutes (cuda : bool) :
  sampler_permutes (Toy.torch_on cuda).
Proof.
  intros r l. simpl. symmetry. apply Permutation_rev.
Qed.

Lemma trial_low_in_range (rate : Q) : suggests_in_range (Toy.trial_low rate).
Proof.
  split; intros name lo hi H; simpl; [lia|].
  destruct (Qle_bool lo rate) eqn:E1; simpl.
  - destruct (Qle_bool rate hi) eqn:E2.
    + split; now apply Qle_bool_iff.
    + split; [apply Qle_refl | exact H].
  - split; [apply Qle_refl | exact H].
Qed.

(** C1, on the code. A trial that samples the rate 1/10 under a
    configured rate of 1/500: the optimizer built from the sampled rate
    has had its rate decayed and has never stepped; the two gradient
    updates of the epoch were made by the trainer's own optimizer, at
    the configured rate; the parameters are those of a trial that samples
    1/100000, and differ from those under a configured rate of 1/10. *)
Theorem objective_steps_configured_optimizer :
  match objective_frame Toy.torch Toy.small_args (Toy.trial_of (1 # 10) 1)
          (boot Toy.torch 0),
        objective_frame Toy.torch Toy.small_args (Toy.trial_of (1 # 100000) 1)
          (boot Toy.torch 0),
        objective_frame Toy.torch Toy.fast_args (Toy.trial_of (1 # 10) 1)
          (boot Toy.torch 0)
  with
  | Ok fr _, Ok fr_other _, Ok fr_fast _ =>
      opt_lr (fr_optimizer fr) = (7 # 100)%Q
      /\ opt_step_count (fr_optimizer fr) = 0%nat
      /\ opt_lr (optimizer (fr_t fr)) = lr Toy.small_args
      /\ opt_step_count (optimizer (fr_t fr)) = 2%nat
      /\ params (model (fr_t fr)) = params (model (fr_t fr_other))
      /\ params (model (fr_t fr)) <> params (model (fr_t fr_fast))
  | _, _, _ => False
  end.
Proof.
  vm_compute. repeat split; discriminate.
Qed.

(** C2, as claimed, fails: on four training examples in batches of two
    with a status line per batch, the progress fields are not
    "2/4 (50%)" and "4/4 (100%)". *)
Lemma train_progress_fields_counterexample :
  map progress_field
      (stdout (world_of (run_epoch Toy.torch Toy.small_args 0
                           (boot Toy.torch 0))))
  = ["0/4 (0%)"; "2/4 (50%)"]%string
  /\ map progress_field
         (stdout (world_of (run_epoch Toy.torch Toy.small_args 0
                              (boot Toy.torch 0))))
     <> ["2/4 (50%)"; "4/4 (100%)"]%string.
Proof.
  split; [vm_compute; reflexivity | vm_compute; discriminate].
Qed.

(** ** The theorems at concrete inputs

    The shuffling trainer of the small framework, on its three test
    examples and on none. *)

Lemma test_returns_accuracy_witness :
  sampler_permutes (Toy.torch_on true)
  /\ match test (Toy.trainer_on true Toy.small_args (Toy.mnist false))
             (boot (Toy.torch_on true) 0)
     with
     | Ok (accuracy, _) _ =>
         accuracy = accuracy_spec (Toy.torch_on true) 1%Q (Toy.mnist false)
         /\ (0 <= accuracy <= 1)%Q
     | Raise e _ => e = ZeroDivisionError /\ Toy.mnist false = []
     end.
Proof.
  split.
  - apply toy_sampler_permutes.
  - apply (test_returns_accuracy
             (Toy.trainer_on true Toy.small_args (Toy.mnist false))
             (boot (Toy.torch_on true) 0)).
    apply toy_sampler_permutes.
Defined.



Lemma test_keeps_parameters_witness :
  Toy.mnist false <> []
  /\ exists accuracy t' w',
       test (Toy.trainer_on true Toy.small_args (Toy.mnist false))
            (boot (Toy.torch_on true) 0) = Ok (accuracy, t') w'
       /\ params (model t') = 1%Q
       /\ grads (model t') = None
       /\ optimizer t'
          = Build_Optimizer (Toy.torch_on true) (lr Toy.small_args) tt 0.
Proof.
  split; [discriminate|].
  apply (test_keeps_parameters
           (Toy.trainer_on true Toy.small_args (Toy.mnist false))
           (boot (Toy.torch_on true) 0)).
  discriminate.
Defined.

Lemma test_divides_unguarded_witness :
  sampler_permutes (Toy.torch_on true)
  /\ outcome_of (test (Toy.trainer_on true Toy.small_args [])
                      (boot (Toy.torch_on true) 0))
     = Raised ZeroDivisionError
  /\ exists accuracy,
       outcome_of (test (Toy.trainer_on true Toy.small_args (Toy.mnist false))
                        (boot (Toy.torch_on true) 0))
       = Returned (accuracy,
                   in_eval (Toy.trainer_on true Toy.small_args
                              (Toy.mnist false)))
       /\ (0 <= accuracy <= 1)%Q.
Proof.
  split; [apply toy_sampler_permutes|].
  split.
  - apply (test_divides_unguarded
             (Toy.trainer_on true Toy.small_args [])
             (boot (Toy.torch_on true) 0));
      [apply toy_sampler_permutes | reflexivity].
  - apply (test_divides_unguarded
             (Toy.trainer_on true Toy.small_args (Toy.mnist false))
             (boot (Toy.torch_on true) 0));
      [apply toy_sampler_permutes | discriminate].
Defined.

Lemma train_dry_run_one_batch_witness :
  sampler_permutes (Toy.torch_on true)
  /\ dry_run Toy.dry_args = true
  /\ log_interval Toy.dry_args <> 0
  /\ Toy.mnist true <> []
  /\ exists data rest loss t' w' percent,
       train_batches (Toy.trainer_on true Toy.dry_args (Toy.mnist false))
                     (boot (Toy.torch_on true) 0) = data :: rest
       /\ train_batch
            (in_training (Toy.trainer_on true Toy.dry_args (Toy.mnist false)))
            data = (t', loss)
       /\ train (Toy.trainer_on true Toy.dry_args (Toy.mnist false)) 3
                (boot (Toy.torch_on true) 0) = Ok t' w'
       /\ opt_step_count (optimizer t') = 1%nat
       /\ stdout w' = ([] ++ [TrainStatus 3 0 4 percent loss])%list
       /\ wandb w' = ([] ++ [WandbLog "training_loss" loss])%list.
Proof.
  split; [apply toy_sampler_permutes|].
  split; [reflexivity|].
  split; [discriminate|].
  split; [discriminate|].
  apply (train_dry_run_one_batch
           (Toy.trainer_on true Toy.dry_args (Toy.mnist false)) 3
           (boot (Toy.torch_on true) 0)).
  - apply toy_sampler_permutes.
  - reflexivity.
  - discriminate.
  - discriminate.
Defined.

Lemma train_progress_fields_witness :
  sampler_permutes (Toy.torch_on true)
  /\ List.length (Toy.mnist true) = 4%nat
  /\ dl_batch_size
       (train_loader (Toy.trainer_on true Toy.small_args (Toy.mnist false)))
     = 2%nat
  /\ log_interval Toy.small_args = 1
  /\ dry_run Toy.small_args = false
  /\ exists t' w' line1 line2,
       train (Toy.trainer_on true Toy.small_args (Toy.mnist false)) 0
             (boot (Toy.torch_on true) 0) = Ok t' w'
       /\ stdout w' = ([] ++ [line1; line2])%list
       /\ progress_field line1 = "0/4 (0%)"%string
       /\ progress_field line2 = "2/4 (50%)"%string.
Proof.
  split; [apply toy_sampler_permutes|].
  split; [reflexivity|].
  split; [reflexivity|].
  split; [reflexivity|].
  split; [reflexivity|].
  apply (train_progress_fields
           (Toy.trainer_on true Toy.small_args (Toy.mnist false)) 0
           (boot (Toy.torch_on true) 0)).
  - apply toy_sampler_permutes.
  - reflexivity.
  - reflexivity.
  - reflexivity.
  - reflexivity.
Defined.

Lemma objective_runs_epochs_witness :
  suggest_int (Toy.trial_of (1 # 10) 2) "epochs" 1 1 = Z.of_nat 2
  /\ (1 <= 2)%nat
  /\ 0 < batch_size Toy.small_args
  /\ 0 < test_batch_size Toy.small_args
  /\ log_interval Toy.small_args <> 0
  /\ (0 <= lr Toy.small_args)%Q
  /\ (0 <= suggest_float (Toy.trial_of (1 # 10) 2) "lr" (1 # 100000)
             (1 # 10))%Q
  /\ Toy.mnist false <> []
  /\ exists earlier accuracy w' t0 w0 fr w1,
       objective Toy.torch Toy.small_args (Toy.trial_of (1 # 10) 2)
                 (boot Toy.torch 0) = Ok accuracy w'
       /\ S (List.length earlier) = 2%nat
       /\ calls w' = ([] ++ epoch_calls 0 (earlier ++ [accuracy]))%list
       /\ Train_init Toy.torch Toy.small_args (boot Toy.torch 0) = Ok t0 w0
       /\ runs_epochs 0 (earlier ++ [accuracy])
            (Build_Frame Toy.torch t0
               (Build_Optimizer Toy.torch (1 # 10) tt 0)
               (StepLR_init 1 (gamma Toy.small_args)) None)
            w0 fr w1
       /\ fr_accuracy fr = Some accuracy
       /\ ret tt w1 = Ok tt w'.
Proof.
  split; [reflexivity|].
  split; [lia|].
  split; [reflexivity|].
  split; [reflexivity|].
  split; [discriminate|].
  split; [discriminate|].
  split; [discriminate|].
  split; [discriminate|].
  apply (objective_runs_epochs (F := Toy.torch) Toy.small_args
           (Toy.trial_of (1 # 10) 2) (boot Toy.torch 0) 2).
  - reflexivity.
  - lia.
  - reflexivity.
  - reflexivity.
  - discriminate.
  - discriminate.
  - discriminate.
  - discriminate.
Defined.

Lemma objective_same_for_all_trials_witness :
  suggests_in_range (Toy.trial_low (1 # 10))
  /\ suggests_in_range (Toy.trial_low (1 # 100000))
  /\ outcome_of (objective Toy.torch Toy.small_args (Toy.trial_low (1 # 10))
                   (boot Toy.torch 0))
     = outcome_of (objective Toy.torch Toy.small_args
                     (Toy.trial_low (1 # 100000)) (boot Toy.torch 7))
  /\ (forall fr1 w1' fr2 w2',
        objective_frame Toy.torch Toy.small_args (Toy.trial_low (1 # 10))
          (boot Toy.torch 0) = Ok fr1 w1' ->
        objective_frame Toy.torch Toy.small_args (Toy.trial_low (1 # 100000))
          (boot Toy.torch 7) = Ok fr2 w2' ->
        fr_t fr1 = fr_t fr2).
Proof.
  split; [apply trial_low_in_range|].
  split; [apply trial_low_in_range|].
  apply (objective_same_for_all_trials (F := Toy.torch) Toy.small_args
           (Toy.trial_low (1 # 10)) (Toy.trial_low (1 # 100000))
           (boot Toy.torch 0) (boot Toy.torch 7));
    apply trial_low_in_range.
Defined.

(** * Further properties of the harness *)

(** ** A full pass of [Train.train] *)
Section FullPass.

Context {F : Torch}.

Lemma status_line_loader (t t' : Train F) (epoch : nat) (x : nat * nat * Q) :
  train_loader t' = train_loader t ->
  status_line t' epoch x = status_line t epoch x.
Proof. intros H. unfold status_line. now rewrite H. Qed.

(** The batches of a pass: none is empty, none is longer than the batch
    size, and all before a given one are full. *)
Lemma batch_sampler_nth {A : Type} (bs : nat) (l : list A) :
  (0 < bs)%nat ->
  forall batch j b,
    (List.length batch < bs)%nat ->
    nth_error (batch_sampler bs batch l) j = Some b ->
    (1 <= List.length b <= bs)%nat
    /\ (j * bs + List.length b <= List.length batch + List.length l)%nat.
Proof.
  intros Hbs. induction l as [|x l IH]; intros batch j b Hk E;
    cbn [batch_sampler] in E.
  - destruct batch as [|y batch].
    + destruct j; discriminate E.
    + destruct j as [|j]; [|destruct j; discriminate E].
      injection E as <-. cbn [List.length] in *. lia.
  - assert (Hlen : List.length (batch ++ [x]) = S (List.length batch))
      by (rewrite length_app; cbn [List.length]; lia).
    rewrite Hlen in E. cbn [List.length].
    destruct (Nat.eqb_spec (S (List.length batch)) bs) as [Efull|Enot].
    + destruct j as [|j].
      * injection E as <-. rewrite Hlen. lia.
      * cbn [nth_error] in E.
        destruct (IH [] j b ltac:(cbn [List.length]; lia) E) as [H1 H2].
        cbn [List.length] in H2. split; [exact H1|].
        cbn [Nat.mul]. lia.
    + destruct (IH (batch ++ [x]) j b ltac:(lia) E) as [H1 H2].
      split; [exact H1 | lia].
Qed.

(** What the loop of [train] emits, however it ends: a status line and
    a metrics event per logged batch, and nothing else. *)
Lemma train_loop_logged (epoch : nat) (batches : list (Batch F)) :
  forall (t : Train F) (i : nat) (w : World F),
  exists logged,
    stdout (world_of (train_loop t epoch i batches w))
    = (stdout w ++ map (status_line t epoch) logged)%list
    /\ wandb (world_of (train_loop t epoch i batches w))
       = (wandb w ++ map status_event logged)%list
    /\ Forall (fun x =>
                 (i <= fst (fst x))%nat
                 /\ exists data,
                      nth_error batches (fst (fst x) - i) = Some data
                      /\ snd (fst x) = List.length data)
              logged
    /\ rng (world_of (train_loop t epoch i batches w)) = rng w
    /\ calls (world_of (train_loop t epoch i batches w)) = calls w
    /\ mnist_cnn_pt (world_of (train_loop t epoch i batches w))
       = mnist_cnn_pt w.
Proof.
  assert (Hshift : forall (data : Batch F) rest i (logged : list (nat * nat * Q)),
             Forall (fun x =>
                       (S i <= fst (fst x))%nat
                       /\ exists d,
                            nth_error rest (fst (fst x) - S i) = Some d
                            /\ snd (fst x) = List.length d) logged ->
             Forall (fun x =>
                       (i <= fst (fst x))%nat
                       /\ exists d,
                            nth_error (data :: rest) (fst (fst x) - i) = Some d
                            /\ snd (fst x) = List.length d) logged).
  { intros data rest i logged Hf. eapply Forall_impl; [|exact Hf].
    intros x (Hi & d & Hn & Hk). split; [lia|]. exists d. split; [|exact Hk].
    replace (fst (fst x) - i)%nat with (S (fst (fst x) - S i)) by lia.
    exact Hn. }
  induction batches as [|data rest IH]; intros t i w.
  - exists []. simpl. rewrite !app_nil_r. auto 10.
  - rewrite train_loop_cons.
    destruct (train_batch_frame t data) as (_ & Hl & _).
    destruct (log_interval (args t) =? 0).
    { exists []. simpl. rewrite !app_nil_r. auto 10. }
    destruct (Z.of_nat i mod log_interval (args t) =? 0).
    + set (x := (i, List.length data, snd (train_batch t data))).
      assert (Hx : (i <= fst (fst x))%nat
                   /\ exists d,
                        nth_error (data :: rest) (fst (fst x) - i) = Some d
                        /\ snd (fst x) = List.length d).
      { split; [simpl; lia|]. exists data. simpl. rewrite Nat.sub_diag.
        split; reflexivity. }
      destruct (dry_run (args t)).
      * exists [x]. simpl. repeat split; try reflexivity.
        constructor; [exact Hx | constructor].
      * match goal with
        | |- context [train_loop ?t1 epoch (S i) rest ?w1] =>
            destruct (IH t1 (S i) w1) as (logged & Ho & Hw & Hf & Hr & Hc & Hs)
        end.
        exists (x :: logged). rewrite Ho, Hw, Hr, Hc, Hs. simpl.
        rewrite <- !app_assoc. simpl.
        rewrite (map_ext _ _ (fun y => status_line_loader t _ epoch y Hl)).
        repeat split; try reflexivity.
        constructor; [exact Hx | now apply Hshift].
    + destruct (IH (fst (train_batch t data)) (S i) w)
        as (logged & Ho & Hw & Hf & Hr & Hc & Hs).
      exists logged. rewrite Ho, Hw, Hr, Hc, Hs.
      rewrite (map_ext _ _ (fun y => status_line_loader t _ epoch y Hl)).
      repeat split; try reflexivity. now apply Hshift.
Qed.

(** X1. However a call of [train] ends, what it has added to standard
    output and to the metrics sink goes in pairs: one status line and one
    "training_loss" event per logged batch, in the same order and with
    the same loss, every line carrying the epoch number and the size of
    the training set. *)
Theorem train_logs_in_pairs (t : Train F) (epoch : nat) (w : World F) :
  exists logged,
    stdout (world_of (train t epoch w))
    = (stdout w ++ map (status_line t epoch) logged)%list
    /\ wandb (world_of (train t epoch w))
       = (wandb w ++ map status_event logged)%list.
Proof.
  rewrite train_eq.
  destruct (pass_world_emits (train_loader t) (with_call (CallTrain epoch) w))
    as (Ho & Hw & _).
  destruct (train_loop_logged epoch (train_batches t w) (in_training t) 0
              (pass_world (train_loader t) (with_call (CallTrain epoch) w)))
    as (logged & Hso & Hsw & _).
  exists logged. rewrite Hso, Hsw, Ho, Hw. split; reflexivity.
Qed.

Lemma percent_below_100 (j n : nat) :
  (j < n)%nat ->
  (0 <= 100 * inject_Z (Z.of_nat j) / inject_Z (Z.of_nat n) < 100)%Q.
Proof.
  intros Hj.
  assert (Hpos : (0 < inject_Z (Z.of_nat n))%Q).
  { change 0%Q with (inject_Z 0). rewrite <- Zlt_Qlt. lia. }
  change 100%Q with (inject_Z 100). rewrite <- inject_Z_mult. split.
  - apply Qle_shift_div_l; [exact Hpos|].
    rewrite Qmult_0_l. change 0%Q with (inject_Z 0).
    rewrite <- Zle_Qle. lia.
  - apply Qlt_shift_div_r; [exact Hpos|].
    rewrite <- inject_Z_mult, <- Zlt_Qlt. lia.
Qed.

(** What ["{:.0f}"] prints for a percentage below 100. *)
Lemma round_half_even_percent (q : Q) :
  (0 <= q < 100)%Q ->
  0 <= round_half_even q <= 100
  /\ (round_half_even q = 100 <-> (199 # 2 <= q)%Q).
Proof.
  intros [H0 H100].
  pose proof (Qfloor_le q) as Hlo. pose proof (Qlt_floor q) as Hhi.
  unfold round_half_even.
  set (fl := Qfloor q) in *.
  rewrite inject_Z_plus in Hhi. change (inject_Z 1) with 1%Q in Hhi.
  assert (Hfl : 0 <= fl <= 99).
  { split.
    - assert (H : (inject_Z (-1) < inject_Z fl)%Q)
        by (change (inject_Z (-1)) with (-1 # 1)%Q; lra).
      rewrite <- Zlt_Qlt in H. lia.
    - assert (H : (inject_Z fl < inject_Z 100)%Q)
        by (change (inject_Z 100) with 100%Q; lra).
      rewrite <- Zlt_Qlt in H. lia. }
  assert (Hcases : fl = 99 \/ (inject_Z fl <= 98)%Q).
  { destruct (Z.eq_dec fl 99) as [E|E]; [now left|right].
    change 98%Q with (inject_Z 98). rewrite <- Zle_Qle. lia. }
  destruct (Qcompare (q - inject_Z fl) (1 # 2)) eqn:Ec.
  - apply Qeq_alt in Ec.
    destruct (Z.even fl) eqn:Ev.
    + split; [lia|]. split; [lia|]. intros Hq.
      destruct Hcases as [E|E].
      * rewrite E in Ev. discriminate Ev.
      * lra.
    + split; [lia|]. split.
      * intros E. assert (E' : fl = 99) by lia. rewrite E' in Ec.
        change (inject_Z 99) with 99%Q in Ec. lra.
      * intros Hq. destruct Hcases as [E|E]; [lia|lra].
  - apply Qlt_alt in Ec. split; [lia|]. split; [lia|].
    intros Hq. destruct Hcases as [E|E].
    + rewrite E in Ec. change (inject_Z 99) with 99%Q in Ec. lra.
    + lra.
  - apply Qgt_alt in Ec. split; [lia|]. split.
    + intros E. assert (E' : fl = 99) by lia. rewrite E' in Ec.
      change (inject_Z 99) with 99%Q in Ec. lra.
    + intros Hq. destruct Hcases as [E|E]; [lia|lra].
Qed.

(** X2. With a positive batch size, every status line that [train]
    prints reads ["processed/total (shown%)"] with the size of the
    training set as total, a sample counter below it, and a whole
    percentage from 0 to 100. The percentage is at least 0 and below 100
    before ["{:.0f}"] rounds it, so a line can read 100 percent while
    batches are still to come: it does exactly when the batch index is
    at least 99.5 percent of the number of batches. *)
Theorem train_status_progress_bounds (t : Train F) (epoch : nat)
  (w : World F) :
  sampler_permutes F ->
  (0 < dl_batch_size (train_loader t))%nat ->
  exists lines,
    stdout (world_of (train t epoch w)) = (stdout w ++ lines)%list
    /\ Forall (fun l =>
                 exists (processed : nat) (shown : Z),
                   progress_field l
                   = (str_nat processed ++ "/"
                        ++ str_nat (List.length (dataset (train_loader t)))
                        ++ " (" ++ str_int shown ++ "%)")%string
                   /\ (processed
                       < List.length (dataset (train_loader t)))%nat
                   /\ 0 <= shown <= 100
                   /\ (0 <= status_percent l < 100)%Q
                   /\ (shown = 100 <-> (199 # 2 <= status_percent l)%Q))
              lines.
Proof.
  intros Hperm Hbs. rewrite train_eq.
  destruct (pass_world_emits (train_loader t) (with_call (CallTrain epoch) w))
    as (Ho & _).
  destruct (train_loop_logged epoch (train_batches t w) (in_training t) 0
              (pass_world (train_loader t) (with_call (CallTrain epoch) w)))
    as (logged & Hso & _ & Hf & _).
  exists (map (status_line (in_training t) epoch) logged).
  rewrite Hso, Ho. split; [reflexivity|].
  apply Forall_map. eapply Forall_impl; [|exact Hf].
  intros x (_ & data & Hn & Hk). rewrite Nat.sub_0_r in Hn.
  assert (Hp : (0 <= 100 * inject_Z (Z.of_nat (fst (fst x)))
                     / inject_Z (Z.of_nat (DataLoader_len (train_loader t)))
                < 100)%Q).
  { apply percent_below_100.
    rewrite <- (DataLoader_len_batches (train_loader t) w Hperm Hbs).
    apply nth_error_Some. intros Hnone.
    assert (Habs : Some data = None) by (rewrite <- Hn; exact Hnone).
    discriminate Habs. }
  assert (Hcount : (fst (fst x) * snd (fst x)
                    < List.length (dataset (train_loader t)))%nat).
  { destruct (batch_sampler_nth (dl_batch_size (train_loader t))
                (pass_order (train_loader t) w) Hbs [] (fst (fst x)) data
                ltac:(cbn [List.length]; lia) Hn) as [[H1 H2] H3].
    cbn [List.length] in H3.
    assert (HP : List.length (pass_order (train_loader t) w)
                 = List.length (dataset (train_loader t)))
      by (apply Permutation_length; now apply pass_order_perm).
    rewrite HP in H3. rewrite Hk.
    pose proof (Nat.mul_le_mono_l _ _ (fst (fst x)) H2) as Hm.
    eapply Nat.lt_le_trans; [|exact H3].
    eapply Nat.le_lt_trans; [exact Hm|]. lia. }
  destruct (round_half_even_percent _ Hp) as (Hshown & Hfull).
  exists (fst (fst x) * snd (fst x))%nat,
    (round_half_even
       (100 * inject_Z (Z.of_nat (fst (fst x)))
          / inject_Z (Z.of_nat (DataLoader_len (train_loader t))))).
  unfold status_line, status_percent, progress_field, format_0f.
  change (train_loader (in_training t)) with (train_loader t).
  split; [reflexivity|].
  split; [exact Hcount|].
  split; [exact Hshown|].
  split; [exact Hp | exact Hfull].
Qed.

(** The line of the last of 200 batches reads 100 percent with 199 of
    the 200 examples counted. *)
Example train_status_reads_100_early :
  map progress_field
      (stdout (world_of (train (toy_trainer last_batch_args 1 2
                                  long_train_set (Toy.mnist false)) 0
                               (boot (Toy.torch_on true) 0))))
  = ["0/200 (0%)"; "199/200 (100%)"]%string.
Proof. vm_compute. reflexivity. Qed.

Lemma train_all_frame (batches : list (Batch F)) :
  forall t : Train F,
    args (train_all t batches) = args t
    /\ train_loader (train_all t batches) = train_loader t
    /\ test_loader (train_all t batches) = test_loader t
    /\ opt_lr (optimizer (train_all t batches)) = opt_lr (optimizer t)
    /\ opt_step_count (optimizer (train_all t batches))
       = (opt_step_count (optimizer t) + List.length batches)%nat.
Proof.
  induction batches as [|b rest IH]; intros t; simpl.
  - repeat split; lia.
  - destruct (train_batch_frame t b) as (Ha & Hl & Ht & _ & Hr & Hc).
    destruct (IH (fst (train_batch t b))) as (Ia & Il & It & Ir & Ic).
    unfold train_all in *. rewrite Ia, Il, It, Ir, Ic, Ha, Hl, Ht, Hr, Hc.
    repeat split; lia.
Qed.

(** Without the dry-run flag the loop applies the update of every
    batch. *)
Lemma train_loop_full (epoch : nat) (batches : list (Batch F)) :
  forall (t : Train F) (i : nat) (w : World F),
    dry_run (args t) = false ->
    log_interval (args t) <> 0 ->
    exists w', train_loop t epoch i batches w = Ok (train_all t batches) w'.
Proof.
  induction batches as [|data rest IH]; intros t i w Hdry Hli.
  - exists w. reflexivity.
  - rewrite train_loop_cons.
    destruct (train_batch_frame t data) as (Ha & _).
    apply Z.eqb_neq in Hli as Hli'. rewrite Hli', Hdry.
    destruct (Z.of_nat i mod log_interval (args t) =? 0);
      apply IH; now rewrite Ha.
Qed.

Lemma train_applies_every_batch_aux (t : Train F) (epoch : nat) (w : World F) :
  dry_run (args t) = false ->
  log_interval (args t) <> 0 ->
  exists w',
    train t epoch w = Ok (train_all (in_training t) (train_batches t w)) w'.
Proof.
  intros Hdry Hli. rewrite train_eq. now apply train_loop_full.
Qed.

(** X3. Without the dry-run flag and with a usable logging interval, a
    call of [train] returns the trainer obtained by applying the gradient
    update of each batch of the pass, in order: which batches are logged
    has no influence on the parameters. *)
Theorem train_applies_every_batch (t : Train F) (epoch : nat) (w : World F) :
  dry_run (args t) = false ->
  log_interval (args t) <> 0 ->
  exists w',
    train t epoch w = Ok (train_all (in_training t) (train_batches t w)) w'.
Proof.
  intros Hdry Hli. now apply train_applies_every_batch_aux.
Qed.

(** X4. Such a call steps the trainer's optimizer once per batch:
    [len(self.train_loader)] times, the number of examples divided by
    the batch size and rounded up. *)
Theorem train_steps_once_per_batch (t : Train F) (epoch : nat) (w : World F) :
  sampler_permutes F ->
  (0 < dl_batch_size (train_loader t))%nat ->
  dry_run (args t) = false ->
  log_interval (args t) <> 0 ->
  exists t' w',
    train t epoch w = Ok t' w'
    /\ opt_step_count (optimizer t')
       = (opt_step_count (optimizer t)
          + ceil_div (List.length (dataset (train_loader t)))
                     (dl_batch_size (train_loader t)))%nat.
Proof.
  intros Hperm Hbs Hdry Hli.
  destruct (train_applies_every_batch_aux t epoch w Hdry Hli) as (w' & E).
  do 2 eexists. split; [exact E|].
  destruct (train_all_frame (train_batches t w) (in_training t))
    as (_ & _ & _ & _ & Hc).
  rewrite Hc. f_equal.
  exact (DataLoader_len_batches (train_loader t) w Hperm Hbs).
Qed.

(** The batch indices below [n] that a logging interval [k] selects. *)
Lemma multiples_below (k n : nat) :
  (0 < k)%nat ->
  List.length (filter (fun j => (j mod k =? 0)%nat) (seq 0 n)) = ceil_div n k.
Proof.
  intros Hk. unfold ceil_div. induction n as [|n IH].
  - symmetry. apply Nat.div_small. lia.
  - rewrite seq_S, filter_app, length_app, IH, Nat.add_0_l. cbn [filter].
    pose proof (Nat.div_mod_eq n k) as Hn.
    pose proof (Nat.mod_upper_bound n k ltac:(lia)) as Hr.
    destruct (Nat.eqb_spec (n mod k) 0) as [E|E]; cbn [List.length].
    + rewrite E in Hn.
      assert (H1 : ((n + k - 1) / k = n / k)%nat).
      { symmetry. apply Nat.div_unique with (r := (k - 1)%nat); lia. }
      assert (H2 : ((S n + k - 1) / k = S (n / k))%nat).
      { symmetry. apply Nat.div_unique with (r := 0%nat); lia. }
      rewrite H1, H2. lia.
    + assert (H1 : ((n + k - 1) / k = S (n / k))%nat).
      { symmetry. apply Nat.div_unique with (r := (n mod k - 1)%nat); lia. }
      assert (H2 : ((S n + k - 1) / k = S (n / k))%nat).
      { symmetry. apply Nat.div_unique with (r := (n mod k)%nat); lia. }
      rewrite H1, H2. lia.
Qed.

Lemma logged_index (i k : nat) :
  (Z.of_nat i mod Z.of_nat k =? 0) = (i mod k =? 0)%nat.
Proof.
  rewrite <- Nat2Z.inj_mod.
  destruct (Nat.eqb_spec (i mod k) 0) as [E|E].
  - rewrite E. reflexivity.
  - apply Z.eqb_neq. lia.
Qed.

Lemma train_loop_line_count (epoch : nat) (batches : list (Batch F)) :
  forall (t : Train F) (i : nat) (w : World F),
    dry_run (args t) = false ->
    0 < log_interval (args t) ->
    exists t' w',
      train_loop t epoch i batches w = Ok t' w'
      /\ List.length (stdout w')
         = (List.length (stdout w)
            + List.length
                (filter (fun j =>
                           (j mod Z.to_nat (log_interval (args t)) =? 0)%nat)
                        (seq i (List.length batches))))%nat.
Proof.
  induction batches as [|data rest IH]; intros t i w Hdry Hli.
  - exists t, w. simpl. split; [reflexivity | lia].
  - rewrite train_loop_cons.
    destruct (train_batch_frame t data) as (Ha & _).
    assert (Hli' : (log_interval (args t) =? 0) = false)
      by (apply Z.eqb_neq; lia).
    rewrite Hli', Hdry. cbn [List.length seq filter].
    assert (Hidx : (Z.of_nat i mod log_interval (args t) =? 0)
                   = (i mod Z.to_nat (log_interval (args t)) =? 0)%nat).
    { rewrite <- logged_index, Z2Nat.id by lia. reflexivity. }
    rewrite Hidx.
    destruct (i mod Z.to_nat (log_interval (args t)) =? 0)%nat.
    + match goal with
      | |- context [train_loop ?t1 epoch (S i) rest ?w1] =>
          destruct (IH t1 (S i) w1) as (t' & w' & E & Hn);
            [now rewrite Ha | now rewrite Ha |]
      end.
      exists t', w'. split; [exact E|].
      rewrite Hn, Ha. cbn [stdout List.length].
      rewrite length_app. cbn [List.length]. lia.
    + destruct (IH (fst (train_batch t data)) (S i) w)
        as (t' & w' & E & Hn); [now rewrite Ha | now rewrite Ha |].
      exists t', w'. split; [exact E|]. rewrite Hn, Ha. reflexivity.
Qed.

(** X5. Without the dry-run flag and with a positive logging interval
    and batch size, a call of [train] prints one status line for every
    [log_interval]-th batch, the first included: the number of batches
    divided by the interval and rounded up, in all. *)
Theorem train_line_count (t : Train F) (epoch : nat) (w : World F) :
  sampler_permutes F ->
  (0 < dl_batch_size (train_loader t))%nat ->
  dry_run (args t) = false ->
  0 < log_interval (args t) ->
  exists t' w',
    train t epoch w = Ok t' w'
    /\ List.length (stdout w')
       = (List.length (stdout w)
          + ceil_div (DataLoader_len (train_loader t))
                     (Z.to_nat (log_interval (args t))))%nat.
Proof.
  intros Hperm Hbs Hdry Hli. rewrite train_eq.
  destruct (pass_world_emits (train_loader t) (with_call (CallTrain epoch) w))
    as (Ho & _).
  destruct (train_loop_line_count epoch (train_batches t w) (in_training t) 0
              (pass_world (train_loader t) (with_call (CallTrain epoch) w))
              Hdry Hli)
    as (t' & w' & E & Hn).
  exists t', w'. split; [exact E|].
  rewrite Hn, Ho. cbn [stdout with_call]. f_equal.
  change (args (in_training t)) with (args t).
  rewrite multiples_below by lia. f_equal.
  exact (DataLoader_len_batches (train_loader t) w Hperm Hbs).
Qed.

(** X6. With a logging interval of 0 and a training set that is not
    empty, [train] raises [ZeroDivisionError] at the first batch, having
    printed and logged nothing. *)
Theorem train_zero_interval (t : Train F) (epoch : nat) (w : World F) :
  sampler_permutes F ->
  log_interval (args t) = 0 ->
  dataset (train_loader t) <> [] ->
  outcome_of (train t epoch w) = Raised ZeroDivisionError
  /\ stdout (world_of (train t epoch w)) = stdout w
  /\ wandb (world_of (train t epoch w)) = wandb w.
Proof.
  intros Hperm Hli Hne.
  destruct (train_batches_first t w Hperm Hne) as (data & rest & Eb).
  destruct (pass_world_emits (train_loader t) (with_call (CallTrain epoch) w))
    as (Ho & Hw & _).
  rewrite train_eq, Eb.
  change (@cons (list (Input F * nat)) data rest)
    with (@cons (Batch F) data rest).
  rewrite train_loop_cons.
  change (args (in_training t)) with (args t). rewrite Hli. simpl.
  rewrite Ho, Hw. auto.
Qed.

(** X7. On an empty training set [train] returns at once: the trainer is
    as before, in training mode, no optimizer step is made and nothing is
    printed or logged, whatever the logging interval. *)
Theorem train_empty_set (t : Train F) (epoch : nat) (w : World F) :
  sampler_permutes F ->
  dataset (train_loader t) = [] ->
  exists w',
    train t epoch w = Ok (in_training t) w'
    /\ stdout w' = stdout w
    /\ wandb w' = wandb w.
Proof.
  intros Hperm He.
  pose proof (pass_order_perm (train_loader t) w Hperm) as HP.
  rewrite He in HP. apply Permutation_sym, Permutation_nil in HP.
  destruct (pass_world_emits (train_loader t) (with_call (CallTrain epoch) w))
    as (Ho & Hw & _).
  rewrite train_eq. unfold train_batches. rewrite HP. simpl.
  eexists. split; [reflexivity|]. rewrite Ho, Hw. auto.
Qed.

End FullPass.

(** ** More on [Train.test] *)
Section EvaluationAgain.

Context {F : Torch}.

(** X8. Evaluation can be repeated: on a non-empty test set a second
    call of [test], made on the trainer and in the process state the
    first call left, returns the same accuracy, even when the sampler
    draws another order. *)
Theorem test_twice_same_accuracy (t : Train F) (w : World F) :
  sampler_permutes F ->
  dataset (test_loader t) <> [] ->
  exists accuracy t' w' w'',
    test t w = Ok (accuracy, t') w'
    /\ test t' w' = Ok (accuracy, t') w''.
Proof.
  intros Hperm Hne.
  assert (En : (List.length (dataset (test_loader t)) =? 0)%nat = false).
  { apply Nat.eqb_neq. intros E. apply length_zero_iff_nil in E.
    contradiction. }
  pose proof (test_eq t w) as E1. cbv zeta in E1. rewrite En in E1.
  rewrite (test_pass_correct t w Hperm) in E1.
  do 2 eexists. exists (world_of (test t w)), (world_of (test (in_eval t)
                                              (world_of (test t w)))).
  split; [rewrite E1; reflexivity|].
  pose proof (test_eq (in_eval t) (world_of (test t w))) as E2.
  cbv zeta in E2.
  pose proof (test_pass_correct (in_eval t) (world_of (test t w)) Hperm)
    as C2.
  change (test_loader (in_eval t)) with (test_loader t) in E2, C2.
  rewrite En, C2 in E2.
  rewrite E2. reflexivity.
Qed.

(** X9. The accuracy does not depend on how the test set is batched or
    ordered: two evaluations of the same parameters on the same test
    set, with any test batch sizes, shuffle flags and generator states,
    return the same accuracy, or both raise [ZeroDivisionError]. *)
Theorem test_accuracy_any_batching (t1 t2 : Train F) (w1 w2 : World F) :
  sampler_permutes F ->
  params (model t1) = params (model t2) ->
  dataset (test_loader t1) = dataset (test_loader t2) ->
  match test t1 w1, test t2 w2 with
  | Ok (accuracy1, _) _, Ok (accuracy2, _) _ => accuracy1 = accuracy2
  | Raise e1 _, Raise e2 _ =>
      e1 = ZeroDivisionError /\ e2 = ZeroDivisionError
  | _, _ => False
  end.
Proof.
  intros Hperm Hp Hd. rewrite !test_eq.
  rewrite (test_pass_correct t1 w1 Hperm), (test_pass_correct t2 w2 Hperm).
  rewrite Hp, Hd.
  destruct (List.length (dataset (test_loader t2)) =? 0)%nat; auto.
Qed.

Lemma filter_keeps_all {A : Type} (f : A -> bool) (l : list A) :
  List.length (filter f l) = List.length l <-> Forall (fun x => f x = true) l.
Proof.
  induction l as [|x l IH]; simpl.
  - split; [constructor | reflexivity].
  - destruct (f x) eqn:E; simpl.
    + split.
      * intros H. constructor; [exact E|]. apply IH. now injection H.
      * intros H. inversion H; subst. f_equal. now apply IH.
    + split.
      * intros H. pose proof (filter_length_le f l) as Hle.
        rewrite H in Hle. exfalso. apply (Nat.nle_succ_diag_l _ Hle).
      * intros H. inversion H; subst. congruence.
Qed.

Lemma fraction_is_one (c n : nat) :
  (0 < n)%nat ->
  (inject_Z (Z.of_nat c) / inject_Z (Z.of_nat n) == 1)%Q <-> c = n.
Proof.
  intros Hn.
  assert (Hnz : ~ (inject_Z (Z.of_nat n) == 0)%Q).
  { change 0%Q with (inject_Z 0). rewrite inject_Z_injective. lia. }
  split.
  - intros H.
    assert (E : (inject_Z (Z.of_nat c) == inject_Z (Z.of_nat n))%Q).
    { rewrite <- (Qmult_div_r (inject_Z (Z.of_nat c)) _ Hnz), H.
      apply Qmult_1_r. }
    rewrite inject_Z_injective in E. lia.
  - intros ->. now apply Qmult_inv_r.
Qed.

(** X10. On a non-empty test set the accuracy [test] returns is 1
    exactly when the highest-scoring class of every test example is its
    label. *)
Theorem test_accuracy_one (t : Train F) (w : World F) :
  sampler_permutes F ->
  dataset (test_loader t) <> [] ->
  exists accuracy t' w',
    test t w = Ok (accuracy, t') w'
    /\ ((accuracy == 1)%Q <->
        Forall (fun ex => argmax F (forward F false (params (model t)) (fst ex))
                          = snd ex)
               (dataset (test_loader t))).
Proof.
  intros Hperm Hne. rewrite test_eq.
  assert (Hpos : (0 < List.length (dataset (test_loader t)))%nat).
  { destruct (dataset (test_loader t)); [contradiction | simpl; lia]. }
  destruct (List.length (dataset (test_loader t)) =? 0)%nat eqn:En.
  { apply Nat.eqb_eq in En. lia. }
  do 3 eexists. split; [reflexivity|].
  rewrite (test_pass_correct t w Hperm), (fraction_is_one _ _ Hpos).
  unfold correct_count. rewrite filter_keeps_all.
  split; intros H; (eapply Forall_impl; [|exact H]); intros ex Hex;
    now apply Nat.eqb_eq.
Qed.

End EvaluationAgain.

(** ** What [objective] does to the files and to the rates *)
Section Effects.

Context {F : Torch}.

Lemma leaves_file_ret {A} (P : A -> Prop) (a : A) :
  P a -> leaves_file (F := F) P (ret a).
Proof.
  intros H w. split; [reflexivity|]. intros a' w' E.
  unfold ret in E. now injection E as <- _.
Qed.

Lemma leaves_file_raise {A} (P : A -> Prop) (e : exn) :
  leaves_file (F := F) P (raise e).
Proof. intros w. split; [reflexivity | discriminate]. Qed.

Lemma leaves_file_bind {A B} (P : A -> Prop) (Q : B -> Prop)
  (m : Py F A) (k : A -> Py F B) :
  leaves_file P m ->
  (forall a, P a -> leaves_file Q (k a)) ->
  leaves_file Q (bind m k).
Proof.
  intros Hm Hk w. unfold bind. destruct (Hm w) as [Hf Hp].
  destruct (m w) as [a w1|e w1]; simpl in Hf.
  - destruct (Hk a (Hp a w1 eq_refl) w1) as [Hf1 Hp1].
    split; [now rewrite Hf1 | exact Hp1].
  - split; [exact Hf | discriminate].
Qed.

Lemma leaves_file_weaken {A} (P Q : A -> Prop) (m : Py F A) :
  (forall a, P a -> Q a) -> leaves_file P m -> leaves_file Q m.
Proof.
  intros H Hm w. destruct (Hm w) as [Hf Hp]. split; [exact Hf|].
  intros a w' E. eauto.
Qed.

Lemma leaves_file_print (l : Line) :
  leaves_file (fun _ => True) (print F l).
Proof. intros w. split; [reflexivity | auto]. Qed.

Lemma leaves_file_wandb_emit (e : WandbEvent) :
  leaves_file (fun _ => True) (wandb_emit F e).
Proof. intros w. split; [reflexivity | auto]. Qed.

Lemma leaves_file_record_call (c : Call) :
  leaves_file (fun _ => True) (record_call F c).
Proof. intros w. split; [reflexivity | auto]. Qed.

Lemma leaves_file_set_rng (r : Rng F) :
  leaves_file (fun _ => True) (set_rng F r).
Proof. intros w. split; [reflexivity | auto]. Qed.

Lemma leaves_file_with_rng {A} (f : Rng F -> A * Rng F) :
  leaves_file (fun _ => True) (with_rng F f).
Proof.
  intros w. unfold with_rng. destruct (f (rng w)).
  split; [reflexivity | auto].
Qed.

Lemma leaves_file_DataLoader_init (ds : list (Example F)) (bs : Z)
  (sh : bool) :
  leaves_file (fun _ => True) (DataLoader_init F ds bs sh).
Proof.
  unfold DataLoader_init. destruct (bs <=? 0);
    [apply leaves_file_raise | now apply leaves_file_ret].
Qed.

Lemma leaves_file_DataLoader_iter (dl : DataLoader F) :
  leaves_file (fun _ => True) (DataLoader_iter dl).
Proof.
  unfold DataLoader_iter. apply (leaves_file_bind (fun _ => True)).
  - destruct (shuffle dl); [apply leaves_file_with_rng|now apply leaves_file_ret].
  - intros a _. now apply leaves_file_ret.
Qed.

Lemma leaves_file_Adam (rate : Q) :
  leaves_file (fun o => opt_lr o = rate /\ opt_step_count o = 0%nat)
              (Adam F rate).
Proof.
  unfold Adam. destruct (Qle_bool 0 rate);
    [now apply leaves_file_ret | apply leaves_file_raise].
Qed.

Lemma keeps_setup_refl (t : Train F) : keeps_setup t t.
Proof. repeat split. Qed.

Lemma keeps_setup_trans (t1 t2 t3 : Train F) :
  keeps_setup t1 t2 -> keeps_setup t2 t3 -> keeps_setup t1 t3.
Proof.
  intros (A1 & S1 & R1) (A2 & S2 & R2). repeat split; congruence.
Qed.

Lemma train_batch_keeps_setup (t : Train F) (b : Batch F) :
  keeps_setup t (fst (train_batch t b)).
Proof.
  destruct (train_batch_frame t b) as (Ha & _ & _ & Hs & Hr & _).
  repeat split; assumption.
Qed.

Lemma leaves_file_train_loop (epoch : nat) (batches : list (Batch F)) :
  forall (t : Train F) (i : nat),
    leaves_file (keeps_setup t) (train_loop t epoch i batches).
Proof.
  induction batches as [|data rest IH]; intros t i; simpl.
  - apply leaves_file_ret, keeps_setup_refl.
  - pose proof (train_batch_keeps_setup t data) as Hk.
    destruct (train_batch t data) as [t' loss]. simpl in Hk.
    assert (Hrest : forall j, leaves_file (keeps_setup t)
                                (train_loop t' epoch j rest)).
    { intros j. eapply leaves_file_weaken; [|apply IH].
      intros t''. now apply keeps_setup_trans. }
    destruct (log_interval (args t') =? 0); [apply leaves_file_raise|].
    destruct (Z.of_nat i mod log_interval (args t') =? 0); [|apply Hrest].
    apply (leaves_file_bind (fun _ => True));
      [apply leaves_file_wandb_emit|]. intros _ _.
    apply (leaves_file_bind (fun _ => True)); [apply leaves_file_print|].
    intros _ _.
    destruct (dry_run (args t')); [now apply leaves_file_ret | apply Hrest].
Qed.

Lemma leaves_file_train (t : Train F) (epoch : nat) :
  leaves_file (keeps_setup t) (train t epoch).
Proof.
  unfold train.
  apply (leaves_file_bind (fun _ => True));
    [apply leaves_file_record_call|]. intros _ _.
  apply (leaves_file_bind (fun _ => True));
    [apply leaves_file_DataLoader_iter|]. intros batches _.
  apply (leaves_file_train_loop epoch batches (in_training t) 0).
Qed.

Lemma leaves_file_test (t : Train F) :
  leaves_file (fun r => snd r = in_eval t) (test t).
Proof.
  unfold test.
  apply (leaves_file_bind (fun _ => True));
    [apply leaves_file_DataLoader_iter|]. intros batches _.
  destruct (test_loop _ batches 0%Q 0%nat) as [test_loss correct].
  destruct (_ =? 0)%nat; [apply leaves_file_raise|].
  apply (leaves_file_bind (fun _ => True));
    [apply leaves_file_wandb_emit|]. intros _ _.
  apply (leaves_file_bind (fun _ => True)); [apply leaves_file_print|].
  intros _ _.
  apply (leaves_file_bind (fun _ => True));
    [apply leaves_file_record_call|]. intros _ _.
  now apply leaves_file_ret.
Qed.

(** One step of a schedule of step size 1 that has been stepped before
    or is fresh: the rate of its optimizer is multiplied by gamma. *)
Lemma leaves_file_StepLR_step (s : StepLR) (o : Optimizer F) :
  step_size s = 1 ->
  0 <= last_epoch s ->
  leaves_file (fun so =>
                 step_size (fst so) = 1
                 /\ sched_gamma (fst so) = sched_gamma s
                 /\ last_epoch (fst so) = last_epoch s + 1
                 /\ opt_lr (snd so) = (opt_lr o * sched_gamma s)%Q)
              (StepLR_step s o).
Proof.
  intros Hs Hl. unfold StepLR_step.
  apply (leaves_file_bind (fun _ => True));
    [apply leaves_file_record_call|]. intros _ _.
  rewrite Hs. simpl Z.eqb. cbv iota. rewrite Z.mod_1_r.
  assert (E : (last_epoch s + 1 =? 0) = false) by (apply Z.eqb_neq; lia).
  rewrite E. simpl. apply leaves_file_ret. simpl. auto.
Qed.

Lemma leaves_file_objective_loop (range : list nat) :
  forall fr : Frame F,
    step_size (fr_scheduler fr) = 1 ->
    0 <= last_epoch (fr_scheduler fr) ->
    leaves_file (after_epochs (List.length range) fr)
                (objective_loop fr range).
Proof.
  induction range as [|epoch rest IH]; intros fr Hs Hl; simpl.
  - apply leaves_file_ret. unfold after_epochs. simpl.
    rewrite Z.add_0_r. auto using keeps_setup_refl.
  - eapply leaves_file_bind; [apply leaves_file_train|]. intros t1 K1.
    eapply leaves_file_bind; [apply leaves_file_test|]. intros r Hr.
    eapply leaves_file_bind;
      [apply (leaves_file_StepLR_step _ _ Hs Hl)|].
    intros so (S1 & S2 & S3 & S4).
    eapply leaves_file_weaken; [|apply IH; simpl; [exact S1 | lia]].
    intros fr' (K & T1 & T2 & T3 & T4). simpl in *.
    unfold after_epochs. rewrite Hr in K.
    split.
    { eapply keeps_setup_trans; [exact K1|].
      eapply keeps_setup_trans; [|exact K]. repeat split. }
    split; [exact T1|].
    split; [congruence|].
    split; [rewrite T3, S3; lia|].
    rewrite T4, S2, S4. symmetry.
    exact (Nat.iter_succ_r (List.length rest) Q
             (fun r => (r * sched_gamma (fr_scheduler fr))%Q)
             (opt_lr (fr_optimizer fr))).
Qed.

Lemma leaves_file_Train_init (a : Args) :
  leaves_file (fun t => args t = a
                        /\ scheduler t = StepLR_init 1 (gamma a)
                        /\ opt_lr (optimizer t) = lr a)
              (Train_init F a).
Proof.
  unfold Train_init.
  apply (leaves_file_bind (fun _ => True)); [apply leaves_file_set_rng|].
  intros _ _.
  apply (leaves_file_bind (fun _ => True));
    [apply leaves_file_wandb_emit|]. intros _ _.
  apply (leaves_file_bind (fun _ => True));
    [apply leaves_file_DataLoader_init|]. intros trl _.
  apply (leaves_file_bind (fun _ => True));
    [apply leaves_file_DataLoader_init|]. intros tel _.
  apply (leaves_file_bind (fun _ => True)); [apply leaves_file_with_rng|].
  intros p _.
  eapply leaves_file_bind; [apply leaves_file_Adam|]. intros o [Ho _].
  apply leaves_file_ret. simpl. auto.
Qed.

Lemma bind_returned {A B} (m : Py F A) (k : A -> Py F B) (w w' : World F)
  (b : B) :
  bind m k w = Ok b w' ->
  exists a w1, m w = Ok a w1 /\ k a w1 = Ok b w'.
Proof.
  unfold bind. destruct (m w) as [a w1|e w1]; [|discriminate].
  intros E. now exists a, w1.
Qed.

(** The frame [objective] has at its [return], and the model file
    then. *)
Lemma objective_frame_returned (a : Args) (trial : Trial) (w w' : World F)
  (fr : Frame F) :
  objective_frame F a trial w = Ok fr w' ->
  args (fr_t fr) = a
  /\ scheduler (fr_t fr) = StepLR_init 1 (gamma a)
  /\ opt_lr (optimizer (fr_t fr)) = lr a
  /\ last_epoch (fr_scheduler fr)
     = Z.of_nat (Z.to_nat (suggest_int trial "epochs" 1 1))
  /\ opt_lr (fr_optimizer fr)
     = Nat.iter (Z.to_nat (suggest_int trial "epochs" 1 1))
                (fun r => (r * gamma a)%Q)
                (suggest_float trial "lr" (1 # 100000) (1 # 10))
  /\ mnist_cnn_pt w'
     = if save_model a then Some (params (model (fr_t fr)))
       else mnist_cnn_pt w.
Proof.
  unfold objective_frame. intros E.
  apply bind_returned in E as (t & w1 & E1 & E).
  apply bind_returned in E as (o & w2 & E2 & E).
  apply bind_returned in E as (fr0 & w3 & E3 & E).
  apply bind_returned in E as (u & w4 & E4 & E).
  unfold ret in E. injection E as -> ->.
  destruct (leaves_file_Train_init a w) as [F1 P1].
  destruct (P1 t w1 E1) as (Ha & Hs & Hr).
  rewrite E1 in F1. simpl in F1.
  destruct (leaves_file_Adam (suggest_float trial "lr" (1 # 100000) (1 # 10))
              w1) as [F2 P2].
  destruct (P2 o w2 E2) as (Ho & _).
  rewrite E2 in F2. simpl in F2.
  destruct (leaves_file_objective_loop
              (seq 0 (Z.to_nat (suggest_int trial "epochs" 1 1)))
              {| fr_t := t; fr_optimizer := o;
                 fr_scheduler := StepLR_init 1 (gamma (args t));
                 fr_accuracy := None |} eq_refl (Z.le_refl 0) w2)
    as [F3 P3].
  destruct (P3 fr w3 E3) as ((Ka & Ks & Kr) & _ & _ & T3 & T4).
  rewrite E3 in F3. simpl in F3, Ka, Ks, Kr, T3, T4.
  rewrite length_seq in T3, T4. rewrite Ha in T4.
  assert (Hargs : args (fr_t fr) = a) by congruence.
  repeat split; try congruence.
  rewrite Hargs in E4.
  destruct (save_model a).
  - unfold torch_save in E4. injection E4 as _ <-. reflexivity.
  - unfold ret in E4. injection E4 as _ <-. congruence.
Qed.

(** X12. Without the save-model flag [objective] never writes the model
    file, however the trial ends. *)
Theorem objective_keeps_file_without_flag (a : Args) (trial : Trial)
  (w : World F) :
  save_model a = false ->
  mnist_cnn_pt (world_of (objective F a trial w)) = mnist_cnn_pt w.
Proof.
  intros Hsave.
  assert (H : leaves_file (fun _ => True) (objective F a trial)).
  { unfold objective, objective_frame.
    eapply leaves_file_bind.
    - eapply leaves_file_bind; [apply leaves_file_Train_init|].
      intros t (Ha & _).
      eapply leaves_file_bind; [apply leaves_file_Adam|]. intros o _.
      eapply leaves_file_bind.
      + apply leaves_file_objective_loop; [reflexivity | apply Z.le_refl].
      + intros fr ((Ka & _) & _). simpl in Ka.
        rewrite Ka, Ha, Hsave.
        apply (leaves_file_bind (fun _ => True));
          [now apply leaves_file_ret|].
        intros _ _. apply (leaves_file_ret (fun _ => True)). exact I.
    - intros fr _. destruct (fr_accuracy fr);
        [now apply leaves_file_ret | apply leaves_file_raise]. }
  apply H.
Qed.

(** X13. With the save-model flag, on a configuration with positive
    batch sizes, a usable logging interval, rates that are not negative
    and a non-empty test set, [objective] gets to its [return] with the
    model file holding the parameters the trainer has then, whatever the
    file held before. *)
Theorem objective_saves_final_parameters (a : Args) (trial : Trial)
  (w : World F) :
  save_model a = true ->
  0 < batch_size a ->
  0 < test_batch_size a ->
  log_interval a <> 0 ->
  (0 <= lr a)%Q ->
  (0 <= suggest_float trial "lr" (1 # 100000) (1 # 10))%Q ->
  MNIST F false <> [] ->
  exists fr w',
    objective_frame F a trial w = Ok fr w'
    /\ mnist_cnn_pt w' = Some (params (model (fr_t fr))).
Proof.
  intros Hsave Hb Htb Hli Hlr Hrate Hne.
  destruct (objective_frame_sampled_optimizer_idle a trial w
              Hb Htb Hli Hlr Hrate Hne) as (fr & w' & E & _).
  exists fr, w'. split; [exact E|].
  destruct (objective_frame_returned a trial w w' fr E)
    as (_ & _ & _ & _ & _ & Hf).
  now rewrite Hsave in Hf.
Qed.

(** X14. On such a configuration, after the [e] epochs of a trial the
    optimizer that trained still has the configured learning rate and
    the trainer's schedule has not moved from epoch 0: the decay factor
    has been applied [e] times, but to the rate of the optimizer built
    from the sampled rate, whose schedule is at epoch [e]. *)
Theorem objective_decays_sampled_rate_only (a : Args) (trial : Trial)
  (w : World F) (e : nat) :
  suggest_int trial "epochs" 1 1 = Z.of_nat e ->
  0 < batch_size a ->
  0 < test_batch_size a ->
  log_interval a <> 0 ->
  (0 <= lr a)%Q ->
  (0 <= suggest_float trial "lr" (1 # 100000) (1 # 10))%Q ->
  MNIST F false <> [] ->
  exists fr w',
    objective_frame F a trial w = Ok fr w'
    /\ opt_lr (optimizer (fr_t fr)) = lr a
    /\ last_epoch (scheduler (fr_t fr)) = 0
    /\ last_epoch (fr_scheduler fr) = Z.of_nat e
    /\ opt_lr (fr_optimizer fr)
       = Nat.iter e (fun r => (r * gamma a)%Q)
                  (suggest_float trial "lr" (1 # 100000) (1 # 10)).
Proof.
  intros He Hb Htb Hli Hlr Hrate Hne.
  destruct (objective_frame_sampled_optimizer_idle a trial w
              Hb Htb Hli Hlr Hrate Hne) as (fr & w' & E & _).
  exists fr, w'. split; [exact E|].
  destruct (objective_frame_returned a trial w w' fr E)
    as (_ & Hs & Hr & Hl & Ho & _).
  rewrite He, Nat2Z.id in Hl, Ho. rewrite Hs.
  repeat split; assumption.
Qed.

End Effects.

(** ** The flags that a trial does not read *)
Section UnusedFlags.

Context {F : Torch}.

Lemma train_batch_alike (t1 t2 : Train F) (b : Batch F) :
  alike t1 t2 ->
  alike (fst (train_batch t1 b)) (fst (train_batch t2 b))
  /\ snd (train_batch t1 b) = snd (train_batch t2 b).
Proof.
  intros (Ha & Hl & Ht & Hm & Ho).
  unfold train_batch. rewrite Hm, Ho.
  destruct (Optimizer_step _ _) as [o m2]. simpl.
  split; [|reflexivity]. unfold alike. simpl. auto 10.
Qed.

Lemma agree_train_loop_alike (epoch : nat) (batches : list (Batch F)) :
  forall (t1 t2 : Train F) (i : nat),
    alike t1 t2 ->
    agree alike (train_loop t1 epoch i batches)
                (train_loop t2 epoch i batches).
Proof.
  induction batches as [|data rest IH]; intros t1 t2 i Hal; simpl.
  - now apply agree_ret.
  - destruct (train_batch_alike t1 t2 data Hal) as [Hal' Hloss].
    destruct (train_batch t1 data) as [t1' loss1].
    destruct (train_batch t2 data) as [t2' loss2]. simpl in Hal', Hloss.
    pose proof Hal' as ((_ & _ & _ & _ & Hd & _ & Hli & _) & _).
    rewrite Hli, Hd.
    destruct (log_interval (args t2') =? 0); [apply agree_raise|].
    destruct (Z.of_nat i mod log_interval (args t2') =? 0);
      [|now apply IH].
    apply (agree_bind (fun _ _ => True)); [apply agree_wandb_emit|].
    intros _ _ _.
    apply (agree_bind (fun _ _ => True)); [apply agree_print|].
    intros _ _ _.
    destruct (dry_run (args t2')); [now apply agree_ret | now apply IH].
Qed.

Lemma agree_train_alike (t1 t2 : Train F) (epoch : nat) :
  alike t1 t2 -> agree alike (train t1 epoch) (train t2 epoch).
Proof.
  intros Hal. pose proof Hal as (Ha & Hl & Ht & Hm & Ho). unfold train.
  apply (agree_bind (fun _ _ => True)); [apply agree_record_call|].
  intros _ _ _. simpl train_loader. rewrite Hl.
  apply (agree_bind eq); [apply agree_DataLoader_iter|].
  intros batches ? <-. apply agree_train_loop_alike.
  unfold alike. simpl. rewrite Hm. auto 10.
Qed.

Lemma agree_test_alike (t1 t2 : Train F) :
  alike t1 t2 ->
  agree (fun r1 r2 => fst r1 = fst r2 /\ alike (snd r1) (snd r2))
        (test t1) (test t2).
Proof.
  intros Hal. pose proof Hal as (Ha & Hl & Ht & Hm & Ho). unfold test.
  simpl test_loader. simpl model. rewrite Ht, Hm.
  apply (agree_bind eq); [apply agree_DataLoader_iter|].
  intros batches ? <-.
  destruct (test_loop _ batches 0%Q 0%nat) as [test_loss correct].
  destruct (_ =? 0)%nat; [apply agree_raise|].
  apply (agree_bind (fun _ _ => True)); [apply agree_wandb_emit|].
  intros _ _ _.
  apply (agree_bind (fun _ _ => True)); [apply agree_print|].
  intros _ _ _.
  apply (agree_bind (fun _ _ => True)); [apply agree_record_call|].
  intros _ _ _. apply agree_ret. simpl.
  split; [reflexivity|]. unfold alike. simpl. auto 10.
Qed.

Lemma agree_objective_loop_alike (range : list nat) :
  forall fr1 fr2 : Frame F,
    alike_frames fr1 fr2 ->
    agree alike_frames (objective_loop fr1 range) (objective_loop fr2 range).
Proof.
  induction range as [|epoch rest IH]; intros fr1 fr2 Hfr; simpl.
  - now apply agree_ret.
  - destruct Hfr as (Ht & Hacc & Hs1 & Hs2).
    apply (agree_bind alike); [now apply agree_train_alike|].
    intros t1 t2 Hal.
    eapply agree_bind; [now apply agree_test_alike|].
    intros r1 r2 [Hr Hal'].
    eapply agree_bind; [now apply agree_StepLR_step|].
    intros so1 so2 [Hso1 Hso2]. apply IH.
    unfold alike_frames. simpl. rewrite Hr. auto.
Qed.

Lemma resets_Train_init_alike (a1 a2 : Args) :
  same_but_schedule_flags a1 a2 ->
  resets alike (Train_init F a1) (Train_init F a2).
Proof.
  intros Hs. pose proof Hs as (Hb & Ht & Hl & Hc & Hd & Hseed & Hli & Hsv).
  unfold Train_init. rewrite Hb, Ht, Hl, Hc, Hseed.
  apply (resets_bind (fun _ _ => True)); [apply resets_set_rng|].
  intros _ _ _.
  apply (agree_bind (fun _ _ => True)); [apply agree_wandb_emit|].
  intros _ _ _.
  apply (agree_bind eq); [apply agree_DataLoader_init|]. intros trl ? <-.
  apply (agree_bind eq); [apply agree_DataLoader_init|]. intros tel ? <-.
  apply (agree_bind eq); [apply agree_with_rng|]. intros p ? <-.
  apply (agree_bind eq); [apply agree_Adam_same|]. intros o ? <-.
  apply agree_ret. unfold alike. simpl. auto 10.
Qed.

(** X15. The value a trial returns does not depend on the flags
    [--epochs] and [--gamma]: under two configurations that differ at
    most in these, for any two trials answering in range and any two
    process states, [objective] returns the same accuracy or raises the
    same exception. *)
Theorem objective_ignores_schedule_flags (a1 a2 : Args)
  (trial1 trial2 : Trial) (w1 w2 : World F) :
  same_but_schedule_flags a1 a2 ->
  suggests_in_range trial1 ->
  suggests_in_range trial2 ->
  outcome_of (objective F a1 trial1 w1) = outcome_of (objective F a2 trial2 w2).
Proof.
  intros Hs H1 H2.
  assert (H : resets alike_frames (objective_frame F a1 trial1)
                (objective_frame F a2 trial2)).
  { unfold objective_frame.
    rewrite (suggested_epochs trial1 H1), (suggested_epochs trial2 H2).
    apply (resets_bind alike); [now apply resets_Train_init_alike|].
    intros t1 t2 Hal.
    apply (agree_bind (fun _ _ => True));
      [apply agree_Adam; now apply suggested_rate|].
    intros o1 o2 _.
    apply (agree_bind alike_frames).
    - apply agree_objective_loop_alike. unfold alike_frames. simpl. auto.
    - intros fr1 fr2 Hfr.
      apply (agree_bind (fun _ _ => True)).
      + destruct Hfr as (((_ & _ & _ & _ & _ & _ & _ & Hsv) & _ & _ & Hm & _)
                         & _).
        rewrite Hsv, Hm.
        destruct (save_model (args (fr_t fr2)));
          [apply agree_torch_save | now apply agree_ret].
      + intros _ _ _. now apply agree_ret. }
  specialize (H w1 w2). unfold objective, bind.
  destruct (objective_frame F a1 trial1 w1) as [fr1 w1'|e1 w1'],
           (objective_frame F a2 trial2 w2) as [fr2 w2'|e2 w2'];
    simpl in H; try contradiction.
  - destruct H as ((_ & Hacc & _) & _). rewrite Hacc.
    destruct (fr_accuracy fr2); reflexivity.
  - destruct H as [-> _]. reflexivity.
Qed.

End UnusedFlags.

(** ** The search: [main] *)
Section Search.

Context {F : Torch}.

Lemma resets_objective (a : Args) (trial1 trial2 : Trial) :
  suggests_in_range trial1 ->
  suggests_in_range trial2 ->
  resets eq (objective F a trial1) (objective F a trial2).
Proof.
  intros H1 H2. unfold objective.
  apply (resets_bind same_trainer); [now apply resets_objective_frame|].
  intros fr1 fr2 (_ & Hacc & _). rewrite Hacc.
  destruct (fr_accuracy fr2); [now apply agree_ret | apply agree_raise].
Qed.

(** Once a trial has returned, every later trial returns the same. *)
Lemma study_optimize_returns (a : Args) (trial : Trial) (w w1 : World F)
  (value : Q) (points : list Trial) :
  suggests_in_range trial ->
  objective F a trial w = Ok value w1 ->
  Forall suggests_in_range points ->
  forall w2, exists w',
    study_optimize F a points w2
    = Ok (map (fun point => (point, value)) points) w'.
Proof.
  intros Ht E. induction 1 as [|point rest Hp _ IH]; intros w2.
  - exists w2. reflexivity.
  - pose proof (resets_objective a trial point Ht Hp w w2) as H.
    rewrite E in H. simpl. unfold bind.
    destruct (objective F a point w2) as [v w3|e w3]; simpl in H;
      [|contradiction].
    destruct H as [<- _]. destruct (IH w3) as (w' & E').
    rewrite E'. now exists w'.
Qed.

Lemma Forall_firstn_of {A : Type} (P : A -> Prop) (n : nat) (l : list A) :
  Forall P l -> Forall P (firstn n l).
Proof.
  intros H. revert n. induction H as [|x l Hx _ IH]; intros [|n]; simpl;
    auto.
Qed.

Lemma best_of_ties (trial : Trial) (value : Q) (points : list Trial) :
  best_of (trial, value) (map (fun point => (point, value)) points)
  = (trial, value).
Proof.
  induction points as [|point rest IH]; simpl; [reflexivity|].
  assert (E : Qle_bool value value = true)
    by (apply Qle_bool_iff, Qle_refl).
  now rewrite E.
Qed.

(** X16. In a search whose trials are answered in range, every trial
    gets the value of the first one: if the first call of [objective]
    returns a value, the study finishes with that value for each of its
    trials; if it raises, the study ends with the same exception. *)
Theorem study_repeats_first_trial (a : Args) (trial : Trial)
  (rest : list Trial) (w : World F) :
  Forall suggests_in_range (trial :: rest) ->
  match objective F a trial w with
  | Ok value _ =>
      exists w',
        study_optimize F a (trial :: rest) w
        = Ok (map (fun point => (point, value)) (trial :: rest)) w'
  | Raise e _ =>
      outcome_of (study_optimize F a (trial :: rest) w) = Raised e
  end.
Proof.
  intros H. inversion H as [|? ? Ht Hrest]; subst.
  cbn [study_optimize]. unfold bind.
  destruct (objective F a trial w) as [value w1|e w1] eqn:E;
    [|reflexivity].
  destruct (study_optimize_returns a trial w w1 value rest Ht E Hrest w1)
    as (w' & E').
  rewrite E'. now exists w'.
Qed.

(** X17. So the search reports its first point: when the trials are
    answered in range and the first call of [objective] returns, [main]
    prints the parameters of the first trial as the best ones; when it
    raises, [main] ends with the same exception. *)
Theorem main_reports_first_trial (a : Args) (trial : Trial)
  (rest : list Trial) (w : World F) :
  Forall suggests_in_range (trial :: rest) ->
  outcome_of (main F a (trial :: rest) w)
  = match outcome_of (objective F a trial w) with
    | Returned _ => Returned (trial_params trial)
    | Raised e => Raised e
    end.
Proof.
  intros H. inversion H as [|? ? Ht Hrest]; subst.
  pose proof (Forall_firstn_of _ 4 rest Hrest) as Hmore.
  unfold main. change (firstn 5 (trial :: rest)) with (trial :: firstn 4 rest).
  remember (firstn 4 rest) as more eqn:Em. clear Em.
  cbn [study_optimize]. unfold bind.
  destruct (objective F a trial w) as [value w1|e w1] eqn:E;
    [|reflexivity].
  destruct (study_optimize_returns a trial w w1 value more Ht E Hmore w1)
    as (w' & E').
  rewrite E'. simpl.
  now rewrite (best_of_ties trial value more).
Qed.

End Search.

(** ** The further theorems at concrete inputs *)

Lemma train_status_progress_bounds_witness :
  sampler_permutes (Toy.torch_on true)
  /\ (0 < 2)%nat
  /\ exists lines,
       stdout (world_of (train (toy_trainer Toy.small_args 2 2 (Toy.mnist true)
                                   (Toy.mnist false)) 0
                               (boot (Toy.torch_on true) 0)))
       = ([] ++ lines)%list
       /\ Forall (fun l =>
                    exists (processed : nat) (shown : Z),
                      progress_field l
                      = (str_nat processed ++ "/" ++ str_nat 4
                           ++ " (" ++ str_int shown ++ "%)")%string
                      /\ (processed < 4)%nat
                      /\ 0 <= shown <= 100
                      /\ (0 <= status_percent l < 100)%Q
                      /\ (shown = 100 <-> (199 # 2 <= status_percent l)%Q))
                 lines.
Proof.
  split; [apply toy_sampler_permutes|]. split; [lia|].
  apply (train_status_progress_bounds
           (toy_trainer Toy.small_args 2 2 (Toy.mnist true) (Toy.mnist false))
           0 (boot (Toy.torch_on true) 0));
    [apply toy_sampler_permutes | simpl; lia].
Defined.

Lemma train_applies_every_batch_witness :
  dry_run Toy.small_args = false
  /\ log_interval Toy.small_args <> 0
  /\ exists w',
       train (toy_trainer Toy.small_args 2 2 (Toy.mnist true) (Toy.mnist false))
             0 (boot (Toy.torch_on true) 0)
       = Ok (train_all
               (in_training (toy_trainer Toy.small_args 2 2 (Toy.mnist true)
                               (Toy.mnist false)))
               (train_batches (toy_trainer Toy.small_args 2 2 (Toy.mnist true)
                                 (Toy.mnist false))
                              (boot (Toy.torch_on true) 0)))
            w'.
Proof.
  split; [reflexivity|]. split; [discriminate|].
  apply (train_applies_every_batch
           (toy_trainer Toy.small_args 2 2 (Toy.mnist true) (Toy.mnist false))
           0 (boot (Toy.torch_on true) 0));
    [reflexivity | discriminate].
Defined.

Lemma train_steps_once_per_batch_witness :
  sampler_permutes (Toy.torch_on true)
  /\ (0 < 3)%nat
  /\ dry_run Toy.small_args = false
  /\ log_interval Toy.small_args <> 0
  /\ exists t' w',
       train (toy_trainer Toy.small_args 3 2 (Toy.mnist true) (Toy.mnist false))
             0 (boot (Toy.torch_on true) 0) = Ok t' w'
       /\ opt_step_count (optimizer t') = (0 + ceil_div 4 3)%nat.
Proof.
  split; [apply toy_sampler_permutes|]. split; [lia|].
  split; [reflexivity|]. split; [discriminate|].
  apply (train_steps_once_per_batch
           (toy_trainer Toy.small_args 3 2 (Toy.mnist true) (Toy.mnist false))
           0 (boot (Toy.torch_on true) 0));
    [apply toy_sampler_permutes | simpl; lia | reflexivity | discriminate].
Defined.

Lemma train_line_count_witness :
  sampler_permutes (Toy.torch_on true)
  /\ (0 < 1)%nat
  /\ dry_run every_third_args = false
  /\ 0 < log_interval every_third_args
  /\ exists t' w',
       train (toy_trainer every_third_args 1 2 (Toy.mnist true)
                (Toy.mnist false))
             0 (boot (Toy.torch_on true) 0) = Ok t' w'
       /\ List.length (stdout w') = (0 + ceil_div (ceil_div 4 1) 3)%nat.
Proof.
  split; [apply toy_sampler_permutes|]. split; [lia|].
  split; [reflexivity|]. split; [reflexivity|].
  apply (train_line_count
           (toy_trainer every_third_args 1 2 (Toy.mnist true) (Toy.mnist false))
           0 (boot (Toy.torch_on true) 0));
    [apply toy_sampler_permutes | simpl; lia | reflexivity | reflexivity].
Defined.

Lemma train_zero_interval_witness :
  sampler_permutes (Toy.torch_on true)
  /\ log_interval zero_interval_args = 0
  /\ Toy.mnist true <> []
  /\ outcome_of (train (toy_trainer zero_interval_args 2 2 (Toy.mnist true)
                          (Toy.mnist false)) 0 (boot (Toy.torch_on true) 0))
     = Raised ZeroDivisionError
  /\ stdout (world_of (train (toy_trainer zero_interval_args 2 2
                                (Toy.mnist true) (Toy.mnist false)) 0
                             (boot (Toy.torch_on true) 0))) = []
  /\ wandb (world_of (train (toy_trainer zero_interval_args 2 2
                               (Toy.mnist true) (Toy.mnist false)) 0
                            (boot (Toy.torch_on true) 0))) = [].
Proof.
  split; [apply toy_sampler_permutes|]. split; [reflexivity|].
  split; [discriminate|].
  apply (train_zero_interval
           (toy_trainer zero_interval_args 2 2 (Toy.mnist true)
              (Toy.mnist false)) 0 (boot (Toy.torch_on true) 0));
    [apply toy_sampler_permutes | reflexivity | discriminate].
Defined.

Lemma train_empty_set_witness :
  sampler_permutes (Toy.torch_on true)
  /\ exists w',
       train (toy_trainer zero_interval_args 2 2 [] (Toy.mnist false)) 0
             (boot (Toy.torch_on true) 0)
       = Ok (in_training (toy_trainer zero_interval_args 2 2 []
                            (Toy.mnist false))) w'
       /\ stdout w' = []
       /\ wandb w' = [].
Proof.
  split; [apply toy_sampler_permutes|].
  apply (train_empty_set
           (toy_trainer zero_interval_args 2 2 [] (Toy.mnist false)) 0
           (boot (Toy.torch_on true) 0));
    [apply toy_sampler_permutes | reflexivity].
Defined.

Lemma test_twice_same_accuracy_witness :
  sampler_permutes (Toy.torch_on true)
  /\ Toy.mnist false <> []
  /\ exists accuracy t' w' w'',
       test (toy_trainer Toy.small_args 2 2 (Toy.mnist true) (Toy.mnist false))
            (boot (Toy.torch_on true) 0) = Ok (accuracy, t') w'
       /\ test t' w' = Ok (accuracy, t') w''.
Proof.
  split; [apply toy_sampler_permutes|]. split; [discriminate|].
  apply (test_twice_same_accuracy
           (toy_trainer Toy.small_args 2 2 (Toy.mnist true) (Toy.mnist false))
           (boot (Toy.torch_on true) 0));
    [apply toy_sampler_permutes | discriminate].
Defined.

Lemma test_accuracy_any_batching_witness :
  sampler_permutes (Toy.torch_on true)
  /\ match test (toy_trainer Toy.small_args 2 1 (Toy.mnist true)
                   (Toy.mnist false)) (boot (Toy.torch_on true) 0),
           test (toy_trainer Toy.small_args 2 3 (Toy.mnist true)
                   (Toy.mnist false)) (boot (Toy.torch_on true) 5)
     with
     | Ok (accuracy1, _) _, Ok (accuracy2, _) _ => accuracy1 = accuracy2
     | Raise e1 _, Raise e2 _ =>
         e1 = ZeroDivisionError /\ e2 = ZeroDivisionError
     | _, _ => False
     end.
Proof.
  split; [apply toy_sampler_permutes|].
  apply (test_accuracy_any_batching
           (toy_trainer Toy.small_args 2 1 (Toy.mnist true) (Toy.mnist false))
           (toy_trainer Toy.small_args 2 3 (Toy.mnist true) (Toy.mnist false))
           (boot (Toy.torch_on true) 0) (boot (Toy.torch_on true) 5));
    [apply toy_sampler_permutes | reflexivity | reflexivity].
Defined.

Lemma test_accuracy_one_witness :
  sampler_permutes (Toy.torch_on true)
  /\ easy_tests <> []
  /\ exists accuracy t' w',
       test (toy_trainer Toy.small_args 2 2 (Toy.mnist true) easy_tests)
            (boot (Toy.torch_on true) 0) = Ok (accuracy, t') w'
       /\ ((accuracy == 1)%Q <->
           Forall (fun ex => Toy.row_argmax (Toy.linear false 1%Q (fst ex))
                             = snd ex) easy_tests).
Proof.
  split; [apply toy_sampler_permutes|]. split; [discriminate|].
  apply (test_accuracy_one
           (toy_trainer Toy.small_args 2 2 (Toy.mnist true) easy_tests)
           (boot (Toy.torch_on true) 0));
    [apply toy_sampler_permutes | discriminate].
Defined.

Lemma objective_keeps_file_without_flag_witness :
  save_model Toy.small_args = false
  /\ mnist_cnn_pt (world_of (objective Toy.torch Toy.small_args
                               (Toy.trial_of (1 # 10) 2) (boot Toy.torch 0)))
     = None.
Proof.
  split; [reflexivity|].
  apply (objective_keeps_file_without_flag (F := Toy.torch) Toy.small_args
           (Toy.trial_of (1 # 10) 2) (boot Toy.torch 0)).
  reflexivity.
Defined.

Lemma objective_saves_final_parameters_witness :
  save_model saving_args = true
  /\ 0 < batch_size saving_args
  /\ 0 < test_batch_size saving_args
  /\ log_interval saving_args <> 0
  /\ (0 <= lr saving_args)%Q
  /\ (0 <= suggest_float (Toy.trial_of (1 # 10) 1) "lr" (1 # 100000)
             (1 # 10))%Q
  /\ Toy.mnist false <> []
  /\ exists fr w',
       objective_frame Toy.torch saving_args (Toy.trial_of (1 # 10) 1)
         (boot Toy.torch 0) = Ok fr w'
       /\ mnist_cnn_pt w' = Some (params (model (fr_t fr))).
Proof.
  split; [reflexivity|]. split; [reflexivity|]. split; [reflexivity|].
  split; [discriminate|]. split; [discriminate|]. split; [discriminate|].
  split; [discriminate|].
  apply (objective_saves_final_parameters (F := Toy.torch) saving_args
           (Toy.trial_of (1 # 10) 1) (boot Toy.torch 0));
    (reflexivity || discriminate).
Defined.

Lemma objective_decays_sampled_rate_only_witness :
  suggest_int (Toy.trial_of (1 # 10) 2) "epochs" 1 1 = Z.of_nat 2
  /\ 0 < batch_size Toy.small_args
  /\ 0 < test_batch_size Toy.small_args
  /\ log_interval Toy.small_args <> 0
  /\ (0 <= lr Toy.small_args)%Q
  /\ (0 <= suggest_float (Toy.trial_of (1 # 10) 2) "lr" (1 # 100000)
             (1 # 10))%Q
  /\ Toy.mnist false <> []
  /\ exists fr w',
       objective_frame Toy.torch Toy.small_args (Toy.trial_of (1 # 10) 2)
         (boot Toy.torch 0) = Ok fr w'
       /\ opt_lr (optimizer (fr_t fr)) = lr Toy.small_args
       /\ last_epoch (scheduler (fr_t fr)) = 0
       /\ last_epoch (fr_scheduler fr) = Z.of_nat 2
       /\ opt_lr (fr_optimizer fr)
          = Nat.iter 2 (fun r => (r * gamma Toy.small_args)%Q) (1 # 10)%Q.
Proof.
  split; [reflexivity|]. split; [reflexivity|]. split; [reflexivity|].
  split; [discriminate|]. split; [discriminate|]. split; [discriminate|].
  split; [discriminate|].
  apply (objective_decays_sampled_rate_only (F := Toy.torch) Toy.small_args
           (Toy.trial_of (1 # 10) 2) (boot Toy.torch 0) 2);
    (reflexivity || discriminate).
Defined.

Lemma other_schedule_args_same :
  same_but_schedule_flags Toy.small_args other_schedule_args.
Proof. repeat split. Qed.

Lemma objective_ignores_schedule_flags_witness :
  same_but_schedule_flags Toy.small_args other_schedule_args
  /\ suggests_in_range (Toy.trial_low (1 # 10))
  /\ suggests_in_range (Toy.trial_low (1 # 100))
  /\ outcome_of (objective Toy.torch Toy.small_args (Toy.trial_low (1 # 10))
                   (boot Toy.torch 0))
     = outcome_of (objective Toy.torch other_schedule_args
                     (Toy.trial_low (1 # 100)) (boot Toy.torch 3)).
Proof.
  split; [apply other_schedule_args_same|].
  split; [apply trial_low_in_range|]. split; [apply trial_low_in_range|].
  apply (objective_ignores_schedule_flags (F := Toy.torch) Toy.small_args
           other_schedule_args (Toy.trial_low (1 # 10))
           (Toy.trial_low (1 # 100)) (boot Toy.torch 0) (boot Toy.torch 3));
    [apply other_schedule_args_same | apply trial_low_in_range
     | apply trial_low_in_range].
Defined.

Lemma toy_points_in_range :
  Forall suggests_in_range
         [Toy.trial_low (1 # 100); Toy.trial_low (1 # 10);
          Toy.trial_low (1 # 1000)].
Proof.
  repeat (apply Forall_cons; [apply trial_low_in_range|]). apply Forall_nil.
Qed.

Lemma study_repeats_first_trial_witness :
  Forall suggests_in_range
         [Toy.trial_low (1 # 100); Toy.trial_low (1 # 10);
          Toy.trial_low (1 # 1000)]
  /\ match objective Toy.torch Toy.small_args (Toy.trial_low (1 # 100))
             (boot Toy.torch 0)
     with
     | Ok value _ =>
         exists w',
           study_optimize Toy.torch Toy.small_args
             [Toy.trial_low (1 # 100); Toy.trial_low (1 # 10);
              Toy.trial_low (1 # 1000)] (boot Toy.torch 0)
           = Ok (map (fun point => (point, value))
                   [Toy.trial_low (1 # 100); Toy.trial_low (1 # 10);
                    Toy.trial_low (1 # 1000)]) w'
     | Raise e _ =>
         outcome_of (study_optimize Toy.torch Toy.small_args
                       [Toy.trial_low (1 # 100); Toy.trial_low (1 # 10);
                        Toy.trial_low (1 # 1000)] (boot Toy.torch 0))
         = Raised e
     end.
Proof.
  split; [apply toy_points_in_range|].
  apply (study_repeats_first_trial (F := Toy.torch) Toy.small_args
           (Toy.trial_low (1 # 100))
           [Toy.trial_low (1 # 10); Toy.trial_low (1 # 1000)]
           (boot Toy.torch 0)).
  apply toy_points_in_range.
Defined.

Lemma main_reports_first_trial_witness :
  Forall suggests_in_range
         [Toy.trial_low (1 # 100); Toy.trial_low (1 # 10);
          Toy.trial_low (1 # 1000)]
  /\ outcome_of (main Toy.torch Toy.small_args
                   [Toy.trial_low (1 # 100); Toy.trial_low (1 # 10);
                    Toy.trial_low (1 # 1000)] (boot Toy.torch 0))
     = match outcome_of (objective Toy.torch Toy.small_args
                           (Toy.trial_low (1 # 100)) (boot Toy.torch 0))
       with
       | Returned _ => Returned (trial_params (Toy.trial_low (1 # 100)))
       | Raised e => Raised e
       end.
Proof.
  split; [apply toy_points_in_range|].
  apply (main_reports_first_trial (F := Toy.torch) Toy.small_args
           (Toy.trial_low (1 # 100))
           [Toy.trial_low (1 # 10); Toy.trial_low (1 # 1000)]
           (boot Toy.torch 0)).
  apply toy_points_in_range.
Defined.
